(** * scriptflow-cli: the flow registry and its commands (bin/index.js)

    A shallow embedding of [bin/index.js].  Every [async] function of the
    source becomes a computation in a small monad over an explicit [World]:
    the process working directory, the settings file [config.json], the file
    system under the storage root, the lines the user will type, and the
    trace of what the program printed, asked and spawned.

    Conventions.
    - Paths are JavaScript strings, as in the source.  [path_join] is
      [path.join]; the file system is keyed by the list of components a path
      resolves to against the working directory.  A function of [fs] or
      [process] that is handed a path follows it as the operating system
      does ([locate]): the components that [..] steps back over have to be
      directories.
    - [JSON.parse] and [JSON.stringify] belong to the platform.  A file is
      either plain text that is not JSON ([Plain]) or the document
      [JSON.stringify] writes for a list of flows ([FlowsDoc]).
    - A promise settles with a value ([Return]), rejects ([Throw]) or never
      settles ([Pending], a prompt whose input never validates). *)

From Stdlib Require Import Ascii String.
From stdpp Require Import base option list strings gmap fin_maps.

Local Open Scope string_scope.
Local Open Scope list_scope.

(** ** Strings *)

Definition nl : string := String "010"%char EmptyString.

(** [s.split(c)] for a one-character separator. *)
Fixpoint split_on (c : ascii) (s : string) : list string :=
  match s with
  | EmptyString => [ EmptyString ]
  | String x r =>
      if Ascii.eqb x c then EmptyString :: split_on c r
      else match split_on c r with
           | h :: t => String x h :: t
           | [] => [ String x EmptyString ]
           end
  end.

(** [l.join(sep)]. *)
Fixpoint join_with (sep : string) (l : list string) : string :=
  match l with
  | [] => EmptyString
  | [ x ] => x
  | x :: r => x +:+ sep +:+ join_with sep r
  end.

(** [s.replaceAll(pat, rep)] for a one-character pattern [pat] and a
    replacement without [$]. *)
Fixpoint replaceAll (pat : ascii) (rep : string) (s : string) : string :=
  match s with
  | EmptyString => EmptyString
  | String x r =>
      if Ascii.eqb x pat then rep +:+ replaceAll pat rep r
      else String x (replaceAll pat rep r)
  end.

Definition starts_with_slash (s : string) : bool :=
  match s with
  | String "/"%char _ => true
  | _ => false
  end.

(** ** Paths ([require('path')]) *)

Definition seg_eqb (a b : string) : bool := bool_decide (a = b).

(** Normalisation of the components of a path: empty components and [.]
    vanish, [..] removes the component before it.  [acc] is reversed. *)
Fixpoint norm_segs (absolute : bool) (acc : list string) (l : list string)
  : list string :=
  match l with
  | [] => rev acc
  | s :: r =>
      if seg_eqb s EmptyString || seg_eqb s "." then norm_segs absolute acc r
      else if seg_eqb s ".." then
        match acc with
        | t :: acc' =>
            if seg_eqb t ".." then norm_segs absolute (".." :: acc) r
            else norm_segs absolute acc' r
        | [] =>
            if absolute then norm_segs absolute [] r
            else norm_segs absolute [ ".." ] r
        end
      else norm_segs absolute (s :: acc) r
  end.

Definition path_segments (p : string) : list string :=
  norm_segs (starts_with_slash p) [] (split_on "/"%char p).

Definition render_path (absolute : bool) (segs : list string) : string :=
  match absolute, segs with
  | true, _ => "/" +:+ join_with "/" segs
  | false, [] => "."
  | false, _ => join_with "/" segs
  end.

Definition path_normalize (p : string) : string :=
  render_path (starts_with_slash p) (path_segments p).

(** [path.join(a, b)]. *)
Definition path_join (a b : string) : string :=
  match a with
  | EmptyString => path_normalize b
  | _ => path_normalize (a +:+ "/" +:+ b)
  end.

(** The components, from the root, that [p] names in a process whose working
    directory is [cwd]: [path.resolve(p)].  This is a computation on the
    text of the path; whether the path can be followed is [locate]'s
    matter. *)
Definition resolve (cwd p : string) : list string :=
  if starts_with_slash p then path_segments p
  else norm_segs true [] (split_on "/"%char cwd ++ split_on "/"%char p).

(** ** Data model *)

(** An element of [flows.json]: [{ name, path, script }]. *)
Record Flow := mkFlow {
  name : string;       (* flow name *)
  path : string;       (* directory the flow is called from *)
  script : string      (* generated script file *)
}.

(** [config.json]. *)
Record Config := mkConfig {
  terminalProfile : string;
  flowDir : string;
  flowCommandDir : string;
  defaultFlowPath : string;
  initialized : bool
}.

#[global] Instance Flow_eq_dec : EqDecision Flow.
Proof. solve_decision. Defined.

#[global] Instance Config_eq_dec : EqDecision Config.
Proof. solve_decision. Defined.

Inductive FileData :=
| Plain (text : string)           (* text that is not a JSON document *)
| FlowsDoc (flows : list Flow).   (* JSON.stringify(flows, null, 2) *)

Inductive Node :=
| Dir
| File (data : FileData).

Inductive ConfigData :=
| ConfigText (text : string)      (* config.json holds text that is not JSON *)
| ConfigDoc (config : Config).    (* JSON.stringify(config, null, 2) *)

(** What the process did that an observer can see. *)
Inductive Event :=
| Log (line : string)                   (* console.log *)
| LogError (line : string)              (* console.error *)
| Asked (question : string)             (* a prompt was shown *)
| Rejected (message : string)           (* a prompt refused the input *)
| Spawned (command : string) (dir : string). (* a child process was started *)

#[global] Instance Event_eq_dec : EqDecision Event.
Proof. solve_decision. Defined.

Abbreviation FS := (gmap (list string) Node).

(** How [exec(command)] ends. *)
Inductive ExecResult :=
| Exited (stdout stderr : string)       (* exit status 0 *)
| ExitedNonZero (msg : string)          (* the child exits with another status *)
| SpawnFailed (msg : string).           (* the child could not be started *)

(** The machine the program runs on. *)
Record Host := mkHost {
  installedVersion : string;  (* require('../package.json').version *)
  latestVersion : string;     (* trimmed output of npm view scriptflow-cli
                                 version, which is taken to succeed *)
  homedir : string;           (* os.homedir() *)
  (** What a child process does when it is started with a command line, in
      a directory, on a file system: how it ends and the file system it
      leaves behind. *)
  child : string -> string -> FS -> ExecResult * FS
}.

Record World := mkWorld {
  host : Host;
  cwd : string;                         (* process.cwd() *)
  configFile : option ConfigData;       (* bin/config.json; None: no such file *)
  configWritable : bool;                (* whether config.json can be written *)
  fs : FS;                              (* every other file and directory *)
  stdin : list string;                  (* lines the user is going to type *)
  trace : list Event                    (* oldest first *)
}.

Definition set_cwd (d : string) (w : World) : World :=
  mkWorld (host w) d (configFile w) (configWritable w) (fs w) (stdin w)
          (trace w).
Definition set_configFile (c : option ConfigData) (w : World) : World :=
  mkWorld (host w) (cwd w) c (configWritable w) (fs w) (stdin w) (trace w).
Definition set_fs (f : FS) (w : World) : World :=
  mkWorld (host w) (cwd w) (configFile w) (configWritable w) f (stdin w)
          (trace w).
Definition set_stdin (l : list string) (w : World) : World :=
  mkWorld (host w) (cwd w) (configFile w) (configWritable w) (fs w) l
          (trace w).
Definition emit (e : Event) (w : World) : World :=
  mkWorld (host w) (cwd w) (configFile w) (configWritable w) (fs w) (stdin w)
          (trace w ++ [ e ]).

(** ** Promises *)

Record JsError := mkError { message : string }.

Inductive Outcome (A : Type) :=
| Return (a : A)
| Throw (e : JsError)
| Pending.
Arguments Return {A} a.
Arguments Throw {A} e.
Arguments Pending {A}.

Definition M (A : Type) : Type := World -> Outcome A * World.

Definition ret {A} (a : A) : M A := fun w => (Return a, w).
Definition throw {A} (e : JsError) : M A := fun w => (Throw e, w).
Definition bind {A B} (m : M A) (k : A -> M B) : M B :=
  fun w =>
    match m w with
    | (Return a, w') => k a w'
    | (Throw e, w') => (Throw e, w')
    | (Pending, w') => (Pending, w')
    end.

Notation "x <- m ;; k" := (bind m (fun x => k))
  (at level 20, m at level 99, k at level 200, only parsing).

(** [try { body } catch (error) { handler }]. *)
Definition try_catch {A} (body : M A) (handler : JsError -> M A) : M A :=
  fun w =>
    match body w with
    | (Throw e, w') => handler e w'
    | r => r
    end.

(** [try { body } finally { cleanup }]: [cleanup] runs when [body] returns or
    throws, and an exception of [cleanup] replaces the result of [body]. *)
Definition try_finally {A} (body : M A) (cleanup : M unit) : M A :=
  fun w =>
    match body w with
    | (Pending, w') => (Pending, w')
    | (r, w') =>
        match cleanup w' with
        | (Return _, w'') => (r, w'')
        | (Throw e, w'') => (Throw e, w'')
        | (Pending, w'') => (Pending, w'')
        end
    end.

Definition get {A} (f : World -> A) : M A := fun w => (Return (f w), w).
Definition modify (f : World -> World) : M unit := fun w => (Return tt, f w).

Definition console_log (s : string) : M unit := modify (emit (Log s)).
Definition console_error (s : string) : M unit := modify (emit (LogError s)).

(** The world a computation leaves and the value it settles with. *)
Definition world_after {A} (r : Outcome A * World) : World := snd r.
Definition outcome {A} (r : Outcome A * World) : Outcome A := fst r.

(** ** File system ([require('fs').promises], [process.chdir]) *)

(** What is at [p]; the root is a directory of every file system. *)
Definition node_at (f : FS) (p : list string) : option Node :=
  match p with
  | [] => Some Dir
  | _ => f !! p
  end.

Definition is_dir (f : FS) (p : list string) : bool :=
  match node_at f p with Some Dir => true | _ => false end.

Definition is_file (f : FS) (p : list string) : bool :=
  match node_at f p with Some (File _) => true | _ => false end.

Definition exists_path (f : FS) (p : list string) : bool :=
  is_dir f p || is_file f p.

Definition ENOENT : JsError := mkError "ENOENT: no such file or directory".
Definition EISDIR : JsError := mkError "EISDIR: illegal operation on a directory".
Definition ENOTDIR : JsError := mkError "ENOTDIR: not a directory".
Definition EEXIST : JsError := mkError "EEXIST: file already exists".
Definition EACCES : JsError := mkError "EACCES: permission denied".
Definition SyntaxError : JsError := mkError "Unexpected token in JSON".

(** How the operating system follows the components [l] of a path from the
    place [acc] (reversed): a name steps down, [..] steps up, an empty
    component and [.] stay.  [own] counts the names on top of [acc] that
    this path stepped down to itself; before it steps up from one of them,
    or stays at it, that place has to be a directory, or the path cannot be
    followed.  The places the path started from (the working directory and
    what is above it) are not looked at, and neither is the place the path
    ends at, nor the names between, which remain in the result: they are
    the business of the operation that uses the result. *)
Definition can_leave (f : FS) (own : nat) (acc : list string) : bool :=
  match own with
  | O => true
  | S _ => is_dir f (rev acc)
  end.

Definition cannot_leave (f : FS) (acc : list string) : JsError :=
  if is_file f (rev acc) then ENOTDIR else ENOENT.

Fixpoint follow (f : FS) (own : nat) (acc : list string) (l : list string)
  : JsError + list string :=
  match l with
  | [] => inr (rev acc)
  | s :: r =>
      if seg_eqb s EmptyString || seg_eqb s "." then
        if can_leave f own acc then follow f own acc r
        else inl (cannot_leave f acc)
      else if seg_eqb s ".." then
        if can_leave f own acc then follow f (pred own) (tail acc) r
        else inl (cannot_leave f acc)
      else follow f (S own) (s :: acc) r
  end.

Definition parent (p : list string) : list string := removelast p.
Definition basename (p : list string) : string := List.last p EmptyString.

Definition is_under (root p : list string) : bool :=
  bool_decide (root `prefix_of` p).

(** [mkdir -p]: every missing directory on the way is created; a file on the
    way is an error. *)
Fixpoint mkdir_p (f : FS) (pre rest : list string) : option FS :=
  match rest with
  | [] => Some f
  | s :: r =>
      let p := pre ++ [ s ] in
      if is_file f p then None else mkdir_p (<[ p := Dir ]> f) p r
  end.

(** The entries at [root] and below it, and the others. *)
Definition subtree (root : list string) (f : FS) : FS :=
  filter (fun kv => root `prefix_of` kv.1) f.
Definition remove_tree (root : list string) (f : FS) : FS :=
  filter (fun kv => ¬ root `prefix_of` kv.1) f.

(** The entries of [f] at [src] and below, re-rooted at [target]. *)
Definition rebase (src target : list string) (f : FS) : FS :=
  list_to_map
    ((fun kv : list string * Node => (target ++ drop (length src) kv.1, kv.2))
       <$> map_to_list (subtree src f)).

(** Where [mv src dst] puts [src]: into [dst] when that is a directory, at
    [dst] when the name is free (or when a file replaces a file); [None]
    when [mv] fails. *)
Definition mv_target (f : FS) (src dst : list string) : option (list string) :=
  if negb (exists_path f src) || bool_decide (src = []) then None
  else if is_dir f dst then
    let t := dst ++ [ basename src ] in
    if exists_path f t || is_under src t then None else Some t
  else if is_file f dst then
    if is_file f src then Some dst else None
  else if is_dir f (parent dst) && negb (is_under src dst) then Some dst
  else None.

(** The effect of a shell's [mv src dst] ([Move-Item], [move]). *)
Definition mv (src dst : list string) (f : FS) : FS :=
  match mv_target f src dst with
  | Some t => rebase src t f ∪ remove_tree src f
  | None => f
  end.

(** The effect of [rm -rf dir] ([Remove-Item -Recurse -Force], [rmdir /s /q]). *)
Definition rm_rf (dir : list string) (f : FS) : FS := remove_tree dir f.

Definition here (p : string) (w : World) : list string := resolve (cwd w) p.

(** Where the path [p] leads when the operating system follows it: the
    empty path leads nowhere, a path that does not start with [/] is
    followed from the working directory. *)
Definition locate (p : string) (w : World) : JsError + list string :=
  match p with
  | EmptyString => inl ENOENT
  | _ =>
      if starts_with_slash p then follow (fs w) 0 [] (split_on "/"%char p)
      else follow (fs w) 0
                  (rev (norm_segs true [] (split_on "/"%char (cwd w))))
                  (split_on "/"%char p)
  end.

(** [fs.access(p)]. *)
Definition fs_access (p : string) : M unit := fun w =>
  match locate p w with
  | inl e => (Throw e, w)
  | inr k =>
      if exists_path (fs w) k then (Return tt, w) else (Throw ENOENT, w)
  end.

(** [fs.stat(p)] followed by [stats.isDirectory()]. *)
Definition fs_stat_isDirectory (p : string) : M bool := fun w =>
  match locate p w with
  | inl e => (Throw e, w)
  | inr k =>
      if exists_path (fs w) k then (Return (is_dir (fs w) k), w)
      else (Throw ENOENT, w)
  end.

(** [fs.readFile(p, 'utf-8')]. *)
Definition fs_readFile (p : string) : M FileData := fun w =>
  match locate p w with
  | inl e => (Throw e, w)
  | inr k =>
      match node_at (fs w) k with
      | Some (File d) => (Return d, w)
      | Some Dir => (Throw EISDIR, w)
      | None => (Throw ENOENT, w)
      end
  end.

(** [fs.writeFile(p, data)]: the directory of [p] has to exist and [p] must
    not be a directory. *)
Definition fs_writeFile (p : string) (d : FileData) : M unit := fun w =>
  match locate p w with
  | inl e => (Throw e, w)
  | inr k =>
      if is_dir (fs w) k then (Throw EISDIR, w)
      else if is_dir (fs w) (parent k) then
        (Return tt, set_fs (<[ k := File d ]> (fs w)) w)
      else if exists_path (fs w) (parent k) then (Throw ENOTDIR, w)
      else (Throw ENOENT, w)
  end.

(** [fs.mkdir(p, { recursive: true })]. *)
Definition fs_mkdir_recursive (p : string) : M unit := fun w =>
  match locate p w with
  | inl e => (Throw e, w)
  | inr k =>
      match mkdir_p (fs w) [] k with
      | Some f => (Return tt, set_fs f w)
      | None =>
          if is_file (fs w) k then (Throw EEXIST, w)
          else (Throw ENOTDIR, w)
      end
  end.

(** [fs.rm(p, { recursive: true })]: [p] itself and, when it is a directory,
    everything below it; a missing [p] is an error ([force] is not set). *)
Definition fs_rm_recursive (p : string) : M unit := fun w =>
  match locate p w with
  | inl e => (Throw e, w)
  | inr k =>
      if exists_path (fs w) k then
        (Return tt, set_fs (remove_tree k (fs w)) w)
      else (Throw ENOENT, w)
  end.

(** [process.cwd()] and [process.chdir(p)]. *)
Definition process_cwd : M string := get cwd.
Definition ENOENT_chdir : JsError :=
  mkError "ENOENT: no such file or directory, chdir".
Definition process_chdir (p : string) : M unit := fun w =>
  match locate p w with
  | inl _ => (Throw ENOENT_chdir, w)
  | inr k =>
      if is_dir (fs w) k then (Return tt, set_cwd (render_path true k) w)
      else (Throw ENOENT_chdir, w)
  end.

(** ** Prompts ([inquirer.prompt]) *)

(** What a [validate] callback returns: [true] or the message to show. *)
Inductive Validation :=
| Valid
| Invalid (msg : string).

(** The user answers one question.  An empty line stands for the default; a
    line the callback refuses is reported and the question is asked again;
    when the user has nothing more to type the prompt stays open. *)
Fixpoint read_answer (default : option string)
    (validate : string -> M Validation) (lines : list string) : M string :=
  match lines with
  | [] => fun w => (Pending, w)
  | l :: rest =>
      let value := match l, default with
                   | EmptyString, Some d => d
                   | _, _ => l
                   end in
      _ <- modify (set_stdin rest) ;;
      v <- validate value ;;
      match v with
      | Valid => ret value
      | Invalid msg =>
          _ <- modify (emit (Rejected msg)) ;;
          read_answer default validate rest
      end
  end.

(** A question of type [input]. *)
Definition prompt_input (question : string) (default : option string)
    (validate : string -> M Validation) : M string :=
  _ <- modify (emit (Asked question)) ;;
  lines <- get stdin ;;
  read_answer default validate lines.

(** A question of type [list]: the user moves through [choices] and can
    only pick one of them (a line that is none of them picks nothing). *)
Fixpoint read_choice (choices : list string) (default : string)
    (lines : list string) : M string :=
  match lines with
  | [] => fun w => (Pending, w)
  | l :: rest =>
      let value := match l with
                   | EmptyString => default
                   | _ => l
                   end in
      _ <- modify (set_stdin rest) ;;
      if bool_decide (value ∈ choices) then ret value
      else read_choice choices default rest
  end.

Definition prompt_list (question : string) (choices : list string)
    (default : string) : M string :=
  _ <- modify (emit (Asked question)) ;;
  lines <- get stdin ;;
  read_choice choices default lines.

Definition no_validate (value : string) : M Validation := ret Valid.

(** An element of the array handed to [inquirer.prompt]: a question of type
    [input], or something without a [name], such as the [argv] of yargs.
    ([null] is taken to fare the same; no run gets there, since the question
    asked before it is never answered.) *)
Inductive Question :=
| NotAQuestion
| Input (name : string) (default : option string)
        (validate : string -> M Validation).

Definition MISSING_NAME : JsError :=
  mkError "You must provide a `name` parameter".

Definition answer_of (name : string) (answers : list (string * string))
  : option string :=
  snd <$> List.find (fun a => String.eqb (fst a) name) answers.

(** [inquirer.prompt(questions)]: the questions are taken in their order; a
    question whose name is answered already is passed over; for an element
    without [name] the prompt cannot be made, and the promise rejects. *)
Fixpoint prompt_questions (questions : list Question)
    (answers : list (string * string)) : M (list (string * string)) :=
  match questions with
  | [] => ret answers
  | NotAQuestion :: _ => throw MISSING_NAME
  | Input name default validate :: rest =>
      match answer_of name answers with
      | Some _ => prompt_questions rest answers
      | None =>
          value <- prompt_input name default validate ;;
          prompt_questions rest (answers ++ [ (name, value) ])
      end
  end.

(** ** Strings and arrays of JavaScript *)

(** [GetSubstitution] for a pattern that is a string: in the replacement
    text [$$] stands for [$], [$&] for the text matched, [$`] for the text
    before it and [$'] for the text after it; there are no groups, so any
    other [$] stands for itself. *)
Fixpoint get_substitution (matched before after rep : string) : string :=
  match rep with
  | EmptyString => EmptyString
  | String c t =>
      if Ascii.eqb c "$" then
        match t with
        | String d r =>
            if Ascii.eqb d "$" then
              String "$" (get_substitution matched before after r)
            else if Ascii.eqb d "&" then
              matched +:+ get_substitution matched before after r
            else if Ascii.eqb d "`" then
              before +:+ get_substitution matched before after r
            else if Ascii.eqb d "'" then
              after +:+ get_substitution matched before after r
            else String c (get_substitution matched before after t)
        | EmptyString => String c EmptyString
        end
      else String c (get_substitution matched before after t)
  end.

(** The first place where [pat] occurs in [s]: the text before it and the
    text after it. *)
Fixpoint find_first (pat before s : string) : option (string * string) :=
  if String.prefix pat s then
    Some (before,
          String.substring (String.length pat)
            (String.length s - String.length pat) s)
  else match s with
       | EmptyString => None
       | String c r => find_first pat (before +:+ String c EmptyString) r
       end.

(** [s.replace(pat, rep)] for strings [pat] and [rep]: the first occurrence
    only. *)
Definition replace_first (pat rep s : string) : string :=
  match find_first pat EmptyString s with
  | Some (before, after) =>
      before +:+ get_substitution pat before after rep +:+ after
  | None => s
  end.

(** [/^[a-zA-Z0-9-_]+$/.test(value)]. *)
Definition name_char (c : ascii) : bool :=
  let n := nat_of_ascii c in
  ((97 <=? n) && (n <=? 122)           (* a-z *)
   || (65 <=? n) && (n <=? 90)         (* A-Z *)
   || (48 <=? n) && (n <=? 57)         (* 0-9 *)
   || (n =? 45) || (n =? 95))%nat.     (* - and _ *)

Definition flowNamePattern (value : string) : bool :=
  match value with
  | EmptyString => false
  | _ => forallb name_char (list_ascii_of_string value)
  end.

(** What a variable holds after [const flows = loadFlows()] (the promise) or
    after [const flows = await loadFlows()] (the array). *)
Inductive FlowsValue :=
| PromiseOfFlows
| ArrayOfFlows (l : list Flow).

(** [flows.find(pred)]: a promise has no [find]. *)
Definition js_find (flows : FlowsValue) (pred : Flow -> bool)
  : M (option Flow) :=
  match flows with
  | ArrayOfFlows l => ret (List.find pred l)
  | PromiseOfFlows => throw (mkError "flows.find is not a function")
  end.

(** [flows.findIndex(pred)]; [None] is [-1]. *)
Fixpoint findIndex (pred : Flow -> bool) (l : list Flow) : option nat :=
  match l with
  | [] => None
  | f :: r => if pred f then Some 0 else S <$> findIndex pred r
  end.

(** [flows.splice(i, 1)]. *)
Definition splice1 (i : nat) (l : list Flow) : list Flow :=
  take i l ++ drop (S i) l.

(** [flows.forEach(f)]. *)
Fixpoint forEach {A} (f : A -> M unit) (l : list A) : M unit :=
  match l with
  | [] => ret tt
  | x :: r => _ <- f x ;; forEach f r
  end.

Definition dquote : string := String "034"%char EmptyString.

Definition NOT_INITIALIZED : string :=
  "Flow manager is not initialized. Please run " +:+ dquote +:+ "flow init"
    +:+ dquote +:+ " to initialize it.".

Definition UPDATE_AVAILABLE : string :=
  "A new version of scriptflow-cli is available. Run " +:+ dquote
    +:+ "npm i -g scriptflow-cli" +:+ dquote +:+ " to update.".

(** ** The program *)

(** [executeCommand = util.promisify(childProcess.exec)]: the child is
    started in the working directory of the process; a status other than 0
    and a child that cannot be started both reject. *)
Definition executeCommand (command : string) : M (string * string) :=
  fun w =>
    let '(r, f) := child (host w) command (cwd w) (fs w) in
    let w' := emit (Spawned command (cwd w)) (set_fs f w) in
    match r with
    | Exited stdout stderr => (Return (stdout, stderr), w')
    | ExitedNonZero msg => (Throw (mkError msg), w')
    | SpawnFailed msg => (Throw (mkError msg), w')
    end.

(** [childProcess.execSync(command)]: throws unless the status is 0. *)
Definition execSync (command : string) : M unit :=
  _ <- executeCommand command ;; ret tt.

(** [childProcess.exec(command)] without a callback: the child is started
    and nobody looks at how it ends.  Its effect on the file system is
    taken at the call. *)
Definition exec (command : string) : M unit :=
  try_catch (_ <- executeCommand command ;; ret tt) (fun _ => ret tt).

Definition checkForUpdates : M unit :=
  latest <- get (fun w => latestVersion (host w)) ;;
  installed <- get (fun w => installedVersion (host w)) ;;
  if bool_decide (latest ≠ installed) then console_log UPDATE_AVAILABLE
  else ret tt.

(** [os.homedir()]. *)
Definition os_homedir : M string := get (fun w => homedir (host w)).

(** [fs.readFile(configFile, 'utf-8')] and [JSON.parse(configData)]. *)
Definition readConfigFile : M ConfigData := fun w =>
  match configFile w with
  | Some d => (Return d, w)
  | None => (Throw ENOENT, w)
  end.
Definition JSON_parse_config (d : ConfigData) : M Config :=
  match d with
  | ConfigDoc c => ret c
  | ConfigText _ => throw SyntaxError
  end.
(** [fs.writeFile(configFile, JSON.stringify(config, null, 2))]. *)
Definition writeConfigFile (c : Config) : M unit := fun w =>
  if configWritable w then (Return tt, set_configFile (Some (ConfigDoc c)) w)
  else (Throw EACCES, w).

Definition loadConfig : M Config :=
  _ <- checkForUpdates ;;
  try_catch
    (configData <- readConfigFile ;;
     JSON_parse_config configData)
    (fun error =>
       throw (mkError ("Failed to load config.json: " +:+ message error))).

Definition saveConfig (config : Config) : M unit :=
  _ <- checkForUpdates ;;
  try_catch
    (writeConfigFile config)
    (fun error =>
       throw (mkError ("Failed to save config.json: " +:+ message error))).

Definition initialize : M unit :=
  _ <- checkForUpdates ;;
  config <- loadConfig ;;
  if initialized config then
    console_log "Flow manager is already initialized."
  else
    terminalProfileAnswer <-
      prompt_list "terminalProfile" [ "bash"; "zsh"; "powershell"; "cmd" ]
                  "bash" ;;
    home <- os_homedir ;;
    flowLocationAnswer <-
      prompt_input "flowLocation"
        (Some (replace_first "$USER_HOME" home (flowDir config)))
        no_validate ;;
    let config :=
      mkConfig terminalProfileAnswer flowLocationAnswer
               (path_join flowLocationAnswer "commands")
               (defaultFlowPath config) true in
    _ <- saveConfig config ;;
    console_log "Flow manager initialized successfully!".

(** [JSON.parse(flowsData)] where the caller expects the list of flows. *)
Definition JSON_parse_flows (d : FileData) : M (list Flow) :=
  match d with
  | FlowsDoc l => ret l
  | Plain _ => throw SyntaxError
  end.

Definition loadFlows : M (list Flow) :=
  _ <- checkForUpdates ;;
  try_catch
    (config <- loadConfig ;;
     let flowsFile := path_join (flowDir config) "flows.json" in
     accessible <-
       try_catch (_ <- fs_access flowsFile ;; ret true)
                 (fun _ => ret false) ;;
     if negb accessible then ret []
     else
       flowsData <- fs_readFile flowsFile ;;
       JSON_parse_flows flowsData)
    (fun error =>
       _ <- console_error ("Error loading flows: " +:+ message error) ;;
       ret []).

Definition saveFlows (flows : list Flow) : M unit :=
  config <- loadConfig ;;
  let flowsFile := path_join (flowDir config) "flows.json" in
  try_catch
    (fs_writeFile flowsFile (FlowsDoc flows))
    (fun error =>
       console_error ("Error saving flows: " +:+ message error)).

(** A call of an [async] function that nobody awaits: what it does is
    done (it is taken at the call), how it settles is not looked at. *)
Definition detached {A} (m : M A) : M unit :=
  fun w => (Return tt, snd (m w)).

(** The [validate] callback of the [flowName] question.  [loadFlows()] is
    called without [await]: it runs, and [flows] is the promise. *)
Definition validateFlowName (value : string) : M Validation :=
  try_catch
    (if negb (flowNamePattern value) then
       ret (Invalid "Please enter a valid flow name")
     else
       _ <- detached loadFlows ;;
       let flows := PromiseOfFlows in
       flow <- js_find flows (fun f => String.eqb (name f) value) ;;
       match flow with
       | Some _ => ret (Invalid "Flow name already exists")
       | None => ret Valid
       end)
    (fun error => ret (Invalid "Please enter a valid flow name")).

(** The [validate] callback of the [flowPath] question. *)
Definition validateFlowPath (value : string) : M Validation :=
  try_catch
    (isDirectory <- fs_stat_isDirectory value ;;
     ret (if isDirectory then Valid
          else Invalid "Please enter a valid directory path"))
    (fun error => ret (Invalid "Please enter a valid path")).

(** The [switch (config.terminalProfile)] of [createFlow]:
    [scriptContent] and [scriptFileExtension], or [None] in the [default]
    case. *)
Definition generateScript (profile commands : string)
  : option (string * string) :=
  if String.eqb profile "bash" then
    Some ("#!/bin/bash" +:+ nl +:+ nl
            +:+ replaceAll ","%char (nl +:+ nl) commands, ".sh")
  else if String.eqb profile "zsh" then
    Some ("#!/bin/zsh" +:+ nl +:+ nl
            +:+ replaceAll ","%char (nl +:+ nl) commands, ".sh")
  else if String.eqb profile "powershell" then
    Some ("# PowerShell script content here" +:+ nl +:+ nl
            +:+ replaceAll ","%char nl commands, ".ps1")
  else if String.eqb profile "cmd" then
    Some ("@echo off" +:+ nl +:+ nl
            +:+ replaceAll ","%char nl commands, ".bat")
  else None.

(** [createFlow] from the point where [inquirer.prompt(questions)] has
    resolved with [{ flowName, flowPath, commands }]. *)
Definition createFlow_answered (config : Config)
    (flowName flowPath commands : string) : M unit :=
  match generateScript (terminalProfile config) commands with
  | None => console_log "Invalid terminal profile selected."
  | Some (scriptContent, scriptFileExtension) =>
      let commandFolder := path_join (flowCommandDir config) flowName in
      try_catch
        (_ <- fs_mkdir_recursive commandFolder ;;
         let scriptFile :=
           path_join commandFolder ("script" +:+ scriptFileExtension) in
         _ <- fs_writeFile scriptFile (Plain scriptContent) ;;
         flows <- loadFlows ;;
         let flows := flows ++ [ mkFlow flowName flowPath scriptFile ] in
         _ <- saveFlows flows ;;
         console_log ("Flow created successfully! File location: "
                        +:+ scriptFile))
        (fun error =>
           console_error ("Error creating flow: " +:+ message error))
  end.

(** [flowNameEntry] is [true] when the argument is truthy (yargs passes its
    [argv] object) and [false] for [null], the default.  Either way the
    first element of [questions] is the argument: the [flowNameEntry] of the
    [if] block is a constant of that block.  [undefined] stands for a name
    that [answers] does not have. *)
Definition createFlow (flowNameEntry : bool) : M unit :=
  _ <- checkForUpdates ;;
  config <- loadConfig ;;
  if negb (initialized config) then console_log NOT_INITIALIZED
  else
    _ <- (if negb flowNameEntry then
            _ <- prompt_input "flowName" None validateFlowName ;; ret tt
          else ret tt) ;;
    currentDir <- process_cwd ;;
    let questions :=
      [ NotAQuestion;
        Input "flowName" None validateFlowName;
        Input "flowPath"
              (Some (path_join currentDir (defaultFlowPath config)))
              validateFlowPath;
        Input "commands" None no_validate ] in
    answers <- prompt_questions questions [] ;;
    match answer_of "flowName" answers, answer_of "flowPath" answers,
          answer_of "commands" answers with
    | Some flowName, Some flowPath, Some commands =>
        createFlow_answered config flowName flowPath commands
    | _, _, _ =>
        throw (mkError "Cannot read properties of undefined")
    end.

Definition listFlows : M unit :=
  _ <- checkForUpdates ;;
  config <- loadConfig ;;
  if negb (initialized config) then console_log NOT_INITIALIZED
  else
    flows <- loadFlows ;;
    if Nat.eqb (length flows) 0 then console_log "No flows found."
    else
      _ <- console_log "List of flows:" ;;
      forEach (fun flow => console_log (name flow)) flows.

Definition runFlow (flowName : string) : M unit :=
  _ <- checkForUpdates ;;
  config <- loadConfig ;;
  if negb (initialized config) then console_log NOT_INITIALIZED
  else
    flows <- loadFlows ;;
    match List.find (fun f => String.eqb (name f) flowName) flows with
    | None => console_log "Flow not found"
    | Some flow =>
        currentDir <- process_cwd ;;
        _ <- process_chdir (path flow) ;;
        _ <- console_log ("Running flow: " +:+ name flow) ;;
        try_finally
          (try_catch
             (out <- executeCommand ("sh " +:+ script flow) ;;
              _ <- console_log (fst out) ;;
              if bool_decide (snd out ≠ EmptyString) then console_error (snd out)
              else ret tt)
             (fun error =>
                console_error ("Error running flow: " +:+ message error)))
          (_ <- process_chdir currentDir ;;
           console_log "Finished.")
    end.

Definition deleteFlow (flowName : string) : M unit :=
  _ <- checkForUpdates ;;
  config <- loadConfig ;;
  if negb (initialized config) then console_log NOT_INITIALIZED
  else
    flows <- loadFlows ;;
    match findIndex (fun f => String.eqb (name f) flowName) flows with
    | None => console_log "Flow not found"
    | Some flowIndex =>
        match flows !! flowIndex with
        | None => throw (mkError "Cannot read properties of undefined")
        | Some flow =>
            try_catch
              (_ <- fs_rm_recursive (script flow) ;;
               let flows := splice1 flowIndex flows in
               _ <- saveFlows flows ;;
               console_log "Flow deleted successfully!")
              (fun error =>
                 console_error ("Error deleting flow: " +:+ message error))
        end
    end.

Definition openFlowForEditing (flowName : string) : M unit :=
  _ <- checkForUpdates ;;
  config <- loadConfig ;;
  if negb (initialized config) then console_log NOT_INITIALIZED
  else
    flows <- loadFlows ;;
    match List.find (fun f => String.eqb (name f) flowName) flows with
    | None => console_log "Flow not found"
    | Some flow =>
        currentDir <- process_cwd ;;
        _ <- process_chdir (path flow) ;;
        _ <- console_log ("Opening flow for editing: " +:+ name flow) ;;
        try_finally
          (try_catch
             (out <- executeCommand ("code " +:+ script flow) ;;
              _ <- console_log (fst out) ;;
              if bool_decide (snd out ≠ EmptyString) then console_error (snd out)
              else ret tt)
             (fun error =>
                console_error ("Error opening flow for editing: "
                                 +:+ message error)))
          (_ <- process_chdir currentDir ;;
           console_log "Finished.")
    end.

Definition COMPLETED_MOVE : string :=
  "Flows moved successfully!" +:+ nl +:+ nl +:+ "New location:".

Definition reinitialize : M unit :=
  _ <- checkForUpdates ;;
  config <- loadConfig ;;
  flows <- loadFlows ;;
  if (0 <? length flows)%nat then
    verificationAnswer <-
      prompt_list "verification"
        [ "Move To New Location"; "Delete Existing Flows"; "Cancel" ]
        "Move To New Location" ;;
    if String.eqb verificationAnswer "Move To New Location" then
      home <- os_homedir ;;
      newFlowLocationAnswer <-
        prompt_input "flowLocation"
          (Some (replace_first "$USER_HOME" home (flowDir config)))
          no_validate ;;
      _ <- (if String.eqb (terminalProfile config) "bash"
               || String.eqb (terminalProfile config) "zsh" then
              execSync ("mv " +:+ flowDir config +:+ " "
                          +:+ newFlowLocationAnswer +:+ "; echo "
                          +:+ COMPLETED_MOVE +:+ newFlowLocationAnswer)
            else if String.eqb (terminalProfile config) "powershell" then
              execSync ("Move-Item -Path " +:+ flowDir config
                          +:+ " -Destination " +:+ newFlowLocationAnswer
                          +:+ "; echo " +:+ COMPLETED_MOVE
                          +:+ newFlowLocationAnswer)
            else if String.eqb (terminalProfile config) "cmd" then
              execSync ("move " +:+ flowDir config +:+ " "
                          +:+ newFlowLocationAnswer +:+ "; echo "
                          +:+ COMPLETED_MOVE +:+ newFlowLocationAnswer)
            else console_log "Invalid terminal profile selected.") ;;
      let config :=
        mkConfig (terminalProfile config) newFlowLocationAnswer
                 (path_join newFlowLocationAnswer "commands")
                 (defaultFlowPath config) true in
      saveConfig config
    else if String.eqb verificationAnswer "Delete Existing Flows" then
      started <-
        (if String.eqb (terminalProfile config) "bash"
            || String.eqb (terminalProfile config) "zsh" then
           _ <- exec ("rm -rf " +:+ flowDir config) ;; ret true
         else if String.eqb (terminalProfile config) "powershell" then
           _ <- exec ("Remove-Item -Recurse -Force " +:+ flowDir config) ;;
           ret true
         else if String.eqb (terminalProfile config) "cmd" then
           _ <- exec ("rmdir /s /q " +:+ flowDir config) ;; ret true
         else
           _ <- console_log "Invalid terminal profile selected." ;;
           ret false) ;;
      if negb started then ret tt
      else
        let config :=
          mkConfig (terminalProfile config) (flowDir config)
                   (flowCommandDir config) (defaultFlowPath config) false in
        _ <- saveConfig config ;;
        initialize
    else ret tt
  else ret tt.

Definition resetConfig : M unit :=
  config <- loadConfig ;;
  home <- os_homedir ;;
  let config :=
    mkConfig "bash" (path_join home ".flow")
             (path_join (path_join home ".flow") "commands") "." false in
  saveConfig config.

(** * Vocabulary of the properties *)

(** [w] after the lines of [l] were added to its trace. *)
Definition logged (l : list Event) (w : World) : World :=
  mkWorld (host w) (cwd w) (configFile w) (configWritable w) (fs w) (stdin w)
          (trace w ++ l).

(** What one update check prints. *)
Definition update_notice (w : World) : list Event :=
  if bool_decide (latestVersion (host w) ≠ installedVersion (host w)) then
    [ Log UPDATE_AVAILABLE ]
  else [].

(** What [loadConfig] settles with, read off [config.json]. *)
Definition config_outcome (d : option ConfigData) : Outcome Config :=
  match d with
  | Some (ConfigDoc c) => Return c
  | Some (ConfigText _) =>
      Throw (mkError ("Failed to load config.json: " +:+ message SyntaxError))
  | None =>
      Throw (mkError ("Failed to load config.json: " +:+ message ENOENT))
  end.

(** Where the registry file is, and what is there. *)
Definition flowsFile (config : Config) (w : World) : list string :=
  here (path_join (flowDir config) "flows.json") w.
Definition registry_node (config : Config) (w : World) : option Node :=
  node_at (fs w) (flowsFile config w).

(** The list of flows [loadFlows] settles with, read off the world. *)
Definition registry (w : World) : list Flow :=
  match configFile w with
  | Some (ConfigDoc c) =>
      match registry_node c w with
      | Some (File (FlowsDoc l)) => l
      | _ => []
      end
  | _ => []
  end.

(** The predicate of [flows.find((f) => f.name === flowName)]. *)
Definition named (flowName : string) (f : Flow) : bool :=
  String.eqb (name f) flowName.

(** The child processes started and the questions asked in a trace. *)
Definition commands_run (l : list Event) : list (string * string) :=
  omap (fun e => match e with
                 | Spawned c d => Some (c, d)
                 | _ => None
                 end) l.
Definition questions_asked (l : list Event) : list string :=
  omap (fun e => match e with Asked q => Some q | _ => None end) l.

(** [process.cwd()] is an absolute path in normal form. *)
Definition canonical_dir (d : string) : Prop :=
  starts_with_slash d = true /\ render_path true (path_segments d) = d.

(** The directory [process.chdir(flow.path)] leads to. *)
Definition flow_directory (flow : Flow) (w : World) : string :=
  render_path true (here (path flow) w).


(** The common shape of [runFlow] and [openFlowForEditing] once the flow is
    found. *)
Definition scoped (command starting failing : string) (flow : Flow)
  : M unit :=
  currentDir <- process_cwd ;;
  _ <- process_chdir (path flow) ;;
  _ <- console_log (starting +:+ name flow) ;;
  try_finally
    (try_catch
       (out <- executeCommand (command +:+ script flow) ;;
        _ <- console_log (fst out) ;;
        if bool_decide (snd out ≠ EmptyString) then console_error (snd out)
        else ret tt)
       (fun error => console_error (failing +:+ message error)))
    (_ <- process_chdir currentDir ;;
     console_log "Finished.").

(** Events that are neither a question nor a child process. *)
Definition quiet (l : list Event) : Prop :=
  commands_run l = [] /\ questions_asked l = [].

(** Settings, files and working directory are the same in both worlds. *)
Definition same_store (w w' : World) : Prop :=
  configFile w' = configFile w /\ fs w' = fs w /\ cwd w' = cwd w.


(** A command that refuses to work before [flow init]: when the settings say
    [initialized: false] it prints the not-initialized message and leaves
    settings, registry and files as they are. *)
Definition refuses_uninitialized (op : M unit) : Prop :=
  forall w config,
    configFile w = Some (ConfigDoc config) ->
    initialized config = false ->
    same_store w (world_after (op w))
    /\ exists l,
         trace (world_after (op w)) = trace w ++ l
         /\ Log NOT_INITIALIZED ∈ l.

(** The same, and more: the command settles, asks nothing and starts no
    child. *)
Definition stops_at_gate (op : M unit) : Prop :=
  forall w config,
    configFile w = Some (ConfigDoc config) ->
    initialized config = false ->
    exists l,
      op w = (Return tt, logged l w)
      /\ Log NOT_INITIALIZED ∈ l
      /\ quiet l.

(** A loader that reports a registry file that is not JSON as an error. *)
Definition surfaces_malformed_registry (load : M (list Flow)) : Prop :=
  forall w config text,
    configFile w = Some (ConfigDoc config) ->
    registry_node config w = Some (File (Plain text)) ->
    exists e, outcome (load w) = Throw e.

(** A saver that reports a failed write of the registry file as an error. *)
Definition surfaces_write_error (save : list Flow -> M unit) : Prop :=
  forall w config flows e,
    configFile w = Some (ConfigDoc config) ->
    outcome (fs_writeFile (path_join (flowDir config) "flows.json")
                          (FlowsDoc flows) w) = Throw e ->
    exists e', outcome (save flows w) = Throw e'.

(** ** Vocabulary of the further properties *)

(** The answer a question takes from a line: an empty line is the default. *)
Definition or_default (default line : string) : string :=
  match line with
  | EmptyString => default
  | _ => line
  end.

(** The choices of the [terminalProfile] question. *)
Definition PROFILES : list string := [ "bash"; "zsh"; "powershell"; "cmd" ].

(** The default offered for the storage root. *)
Definition default_location (config : Config) (w : World) : string :=
  replace_first "$USER_HOME" (homedir (host w)) (flowDir config).

(** The settings [initialize] and the Move branch of [reinitialize] save. *)
Definition located_settings (profile location defaultPath : string)
  : Config :=
  mkConfig profile location (path_join location "commands") defaultPath true.

(** The settings [resetConfig] saves. *)
Definition default_settings (home : string) : Config :=
  mkConfig "bash" (path_join home ".flow")
           (path_join (path_join home ".flow") "commands") "." false.

(** What [listFlows] prints for a list of flows. *)
Definition listing (flows : list Flow) : list Event :=
  match flows with
  | [] => [ Log "No flows found." ]
  | _ => Log "List of flows:" :: map (fun f => Log (name f)) flows
  end.

(** What [runFlow] and [openFlowForEditing] print about the child. *)
Definition report (failing : string) (r : ExecResult) : list Event :=
  match r with
  | Exited stdout stderr =>
      Log stdout :: (if bool_decide (stderr ≠ EmptyString)
                     then [ LogError stderr ] else [])
  | ExitedNonZero msg => [ LogError (failing +:+ msg) ]
  | SpawnFailed msg => [ LogError (failing +:+ msg) ]
  end.

(** The command lines of the Move and Delete branches of [reinitialize] for
    the bash and zsh profiles. *)
Definition mv_command (config : Config) (location : string) : string :=
  "mv " +:+ flowDir config +:+ " " +:+ location +:+ "; echo "
    +:+ COMPLETED_MOVE +:+ location.
Definition rm_command (config : Config) : string :=
  "rm -rf " +:+ flowDir config.

Definition posix_profile (config : Config) : bool :=
  String.eqb (terminalProfile config) "bash"
  || String.eqb (terminalProfile config) "zsh".

(** A command that gives up when [config.json] cannot be read: it rejects
    with the error of [loadConfig] and has done nothing but print. *)
Definition rejects_unreadable_settings (op : M unit) : Prop :=
  forall w e,
    config_outcome (configFile w) = Throw e ->
    exists l, op w = (Throw e, logged l w) /\ quiet l.

(** What the functions print on the way to their work: the update notice
    and errors of [loadFlows]. *)
Definition benign (e : Event) : Prop :=
  e = Log UPDATE_AVAILABLE \/ exists s, e = LogError s.

(** ** Vocabulary of paths *)

(** A component that is a name. *)
Definition plain (s : string) : Prop :=
  s <> EmptyString /\ s <> "." /\ s <> "..".

(** The components of a path in normal form: what is not a name comes
    first. *)
Definition normal_form (l : list string) : Prop :=
  exists pre names,
    l = pre ++ names /\ Forall (fun s => ~ plain s) pre /\ Forall plain names.

Definition no_slash (s : string) : Prop :=
  Forall (fun c => c <> "/"%char) (list_ascii_of_string s).

(** What [norm_segs] has gathered so far ([acc] is reversed): names on top
    of [..]s, and [..]s only when the path does not start at the root. *)
Fixpoint gathered (abs : bool) (acc : list string) : Prop :=
  match acc with
  | [] => True
  | t :: r =>
      (t = ".." /\ abs = false /\ Forall (fun s => s = "..") r)
      \/ (plain t /\ gathered abs r)
  end.

(** [p] can be followed and leads to a directory: [process.chdir(p)]
    succeeds. *)
Definition leads_to_directory (p : string) (w : World) : bool :=
  match locate p w with
  | inr k => is_dir (fs w) k
  | inl _ => false
  end.

(** [p] can be followed and leads to a file or a directory: [fs.rm(p)] finds
    something to remove. *)
Definition leads_somewhere (p : string) (w : World) : bool :=
  match locate p w with
  | inr k => exists_path (fs w) k
  | inl _ => false
  end.

(** * Scenarios *)

(** A child that prints nothing, exits with status 0 and leaves the file
    system as it is. *)
Definition quiet_child (command dir : string) (f : FS) : ExecResult * FS :=
  (Exited EmptyString EmptyString, f).

Definition quiet_host : Host := mkHost "1.0.0" "1.0.0" "/home/u" quiet_child.

Definition settings (profile : string) (init : bool) : Config :=
  mkConfig profile "/r" "/r/commands" "." init.

Definition deploy : Flow := mkFlow "deploy" "/w" "/r/commands/deploy/script.sh".

Definition deploy_script : string :=
  "#!/bin/bash" +:+ nl +:+ nl +:+ "echo a" +:+ nl +:+ nl +:+ "echo b".

(** The directories of the user, without a storage root. *)
Definition fs_fresh : FS :=
  {[ [ "home" ] := Dir; [ "home"; "u" ] := Dir; [ "w" ] := Dir ]}.

(** The storage root [/r] with the one flow [deploy]. *)
Definition fs_deploy : FS :=
  <[ [ "r" ] := Dir ]>
    (<[ [ "r"; "commands" ] := Dir ]>
       (<[ [ "r"; "commands"; "deploy" ] := Dir ]>
          (<[ [ "r"; "commands"; "deploy"; "script.sh" ]
                := File (Plain deploy_script) ]>
             (<[ [ "r"; "flows.json" ] := File (FlowsDoc [ deploy ]) ]>
                fs_fresh)))).

Definition world_of (h : Host) (c : Config) (f : FS) (lines : list string)
  : World :=
  mkWorld h "/home/u" (Some (ConfigDoc c)) true f lines [].

(** Initialized, bash, one flow. *)
Definition world_deploy : World :=
  world_of quiet_host (settings "bash" true) fs_deploy [].

(** A host on which every child exits with a status other than 0. *)
Definition failing_child (command dir : string) (f : FS) : ExecResult * FS :=
  (ExitedNonZero "Command failed", f).
Definition failing_host : Host :=
  mkHost "1.0.0" "1.0.1" "/home/u" failing_child.


(** Initialized, powershell, one flow, children fail. *)
Definition world_failing : World :=
  world_of failing_host (settings "powershell" true) fs_deploy [].

(** A host whose shell knows [rm -rf /r] and [mv /r /new; ...]; the move
    ends as [moved] says. *)
Definition shell_child (moved : ExecResult) (command dir : string) (f : FS)
  : ExecResult * FS :=
  if String.eqb command "rm -rf /r" then
    (Exited EmptyString EmptyString, rm_rf [ "r" ] f)
  else if String.prefix "mv /r /new;" command then
    (moved, mv [ "r" ] [ "new" ] f)
  else (Exited EmptyString EmptyString, f).
Definition shell_host (moved : ExecResult) : Host :=
  mkHost "1.0.0" "1.0.0" "/home/u" (shell_child moved).

(** Not initialized, but the storage root of an earlier setup is there; the
    user chooses to delete it and answers the questions of [flow init]. *)
Definition world_uninitialized_deploy : World :=
  world_of (shell_host (Exited EmptyString EmptyString)) (settings "bash" false)
           fs_deploy [ "Delete Existing Flows"; "zsh"; "/new" ].

(** Initialized, nothing stored yet. *)
Definition world_initialized : World :=
  world_of quiet_host (settings "bash" true) fs_fresh [].

(** [flows.json] holds text that is not JSON. *)
Definition fs_malformed : FS :=
  <[ [ "r" ] := Dir ]>
    (<[ [ "r"; "flows.json" ] := File (Plain "[{") ]> fs_fresh).
Definition world_malformed : World :=
  world_of quiet_host (settings "bash" true) fs_malformed [].

(** [flows.json] is a directory: it can be neither read nor written. *)
Definition fs_unwritable : FS :=
  <[ [ "r" ] := Dir ]> (<[ [ "r"; "flows.json" ] := Dir ]> fs_fresh).
Definition world_unwritable : World :=
  world_of quiet_host (settings "bash" true) fs_unwritable [].

(** Initialized, one flow; the user chooses to move the storage root to
    [/new], and the shell's move ends as [moved] says. *)
Definition world_move (moved : ExecResult) : World :=
  world_of (shell_host moved) (settings "bash" true) fs_deploy
           [ "Move To New Location"; "/new" ].

(** Initialized or not, nothing stored; the user is ready to answer the
    questions of [flow init]. *)
Definition world_no_flows (init : bool) : World :=
  world_of quiet_host (settings "bash" init) fs_fresh [ "zsh"; "/new" ].

(** Initialized, one flow; the user tries three names, none of them taken. *)
Definition world_create : World :=
  world_of quiet_host (settings "bash" true) fs_deploy
           [ "build"; "build-2"; "build_3" ].

(** ** Scenarios of the further properties *)

(** No [config.json] at all. *)
Definition world_no_config : World :=
  mkWorld quiet_host "/home/u" None true fs_deploy [] [].

(** [config.json] is there and cannot be written. *)
Definition world_readonly_config : World :=
  mkWorld quiet_host "/home/u" (Some (ConfigDoc (settings "bash" true))) false
          fs_deploy [ EmptyString; "/new" ] [].

(** Not initialized; the user takes the default profile and types a root. *)
Definition world_first_run : World :=
  world_of quiet_host
           (mkConfig "cmd" "$USER_HOME/.flow" "$USER_HOME/.flow/commands" "."
                     false)
           fs_fresh [ EmptyString; EmptyString; "later" ].

(** Two records of the name deploy around one of the name build. *)
Definition build : Flow := mkFlow "build" "/w" "/r/commands/build/script.sh".
Definition fs_three : FS :=
  <[ [ "r"; "commands"; "build" ] := Dir ]>
    (<[ [ "r"; "commands"; "build"; "script.sh" ]
          := File (Plain deploy_script) ]>
       (<[ [ "r"; "flows.json" ]
             := File (FlowsDoc [ build; deploy; deploy ]) ]> fs_deploy)).
Definition world_three : World :=
  world_of quiet_host (settings "zsh" true) fs_three [].

(** A child that prints on both streams. *)
Definition chatty_child (command dir : string) (f : FS) : ExecResult * FS :=
  (Exited "done" "warning", f).
Definition world_chatty : World :=
  world_of (mkHost "1.0.0" "1.0.0" "/home/u" chatty_child)
           (settings "bash" true) fs_deploy [].

(** The flow's directory [/w] is gone. *)
Definition world_no_directory : World :=
  world_of quiet_host (settings "bash" true) (delete [ "w" ] fs_deploy) [].

(** A profile that is none of the four. *)
Definition world_fish (lines : list string) : World :=
  world_of quiet_host (settings "fish" true) fs_deploy lines.

(** The user cancels, moves or deletes. *)
Definition world_reinit (moved : ExecResult) (lines : list string) : World :=
  world_of (shell_host moved) (settings "bash" true) fs_deploy lines.

(** The folder of the flows, [/r/commands], is a file. *)
Definition world_blocked : World :=
  set_fs (<[ [ "r"; "commands" ] := File (Plain "x") ]> fs_deploy)
         world_deploy.

(** * Properties *)

(** The two sides are the same world once the updates are carried out,
    innermost first. *)
Ltac same_world :=
  cbv [ logged emit set_stdin set_configFile set_fs set_cwd
        host cwd configFile configWritable fs stdin trace
        console_log console_error modify ret ];
  rewrite <- ?app_assoc; reflexivity.

(** Closes an equation between closed terms by evaluating both sides. *)
Ltac by_evaluation :=
  match goal with
  | |- @eq ?T ?a ?b => exact (@eq_refl T b <: @eq T a b)
  end.

(** ** Following a path *)

Lemma seg_eqb_eq a b : seg_eqb a b = true <-> a = b.
Proof. unfold seg_eqb. by rewrite bool_decide_eq_true. Qed.

Lemma seg_eqb_neq a b : seg_eqb a b = false <-> a <> b.
Proof. unfold seg_eqb. by rewrite bool_decide_eq_false. Qed.

Lemma plain_step s :
  plain s ->
  seg_eqb s EmptyString || seg_eqb s "." = false /\ seg_eqb s ".." = false.
Proof.
  intros (H1 & H2 & H3).
  apply seg_eqb_neq in H1, H2, H3. by rewrite H1, H2, H3.
Qed.

Lemma norm_segs_app abs acc a b :
  norm_segs abs acc (a ++ b) = norm_segs abs (rev (norm_segs abs acc a)) b.
Proof.
  revert acc. induction a as [ | s r IH ]; intros acc; simpl.
  - by rewrite rev_involutive.
  - destruct (seg_eqb s EmptyString || seg_eqb s "."); [ apply IH | ].
    destruct (seg_eqb s ".."); [ | apply IH ].
    destruct acc as [ | t acc' ]; [ destruct abs; apply IH | ].
    destruct (seg_eqb t ".."); apply IH.
Qed.

(** From the root, no [..] is left. *)
Lemma norm_segs_rooted acc l :
  Forall (fun s => s <> "..") acc ->
  Forall (fun s => s <> "..") (norm_segs true acc l).
Proof.
  revert acc. induction l as [ | s r IH ]; intros acc Hacc; simpl.
  - by apply Forall_rev.
  - destruct (seg_eqb s EmptyString || seg_eqb s "."); [ by apply IH | ].
    destruct (seg_eqb s "..") eqn:Hs.
    + destruct acc as [ | t acc' ]; [ by apply IH | ].
      inversion Hacc as [ | ? ? Ht Hacc' ]; subst.
      apply seg_eqb_neq in Ht. rewrite Ht. by apply IH.
    + apply IH. constructor; [ by apply seg_eqb_neq | exact Hacc ].
Qed.

(** A path that can be followed leads where its text says. *)
Lemma follow_key f own acc l k :
  Forall (fun s => s <> "..") acc ->
  follow f own acc l = inr k ->
  k = norm_segs true acc l.
Proof.
  revert own acc. induction l as [ | s r IH ]; intros own acc Hacc; simpl.
  - by intros [= <-].
  - destruct (seg_eqb s EmptyString || seg_eqb s ".").
    { destruct (can_leave f own acc); [ by apply IH | done ]. }
    destruct (seg_eqb s "..") eqn:Hs.
    + destruct (can_leave f own acc); [ | done ].
      destruct acc as [ | t acc' ]; simpl; [ by apply IH | ].
      inversion Hacc as [ | ? ? Ht Hacc' ]; subst.
      apply seg_eqb_neq in Ht. rewrite Ht. by apply IH.
    + apply IH. constructor; [ by apply seg_eqb_neq | exact Hacc ].
Qed.

Lemma locate_here p w k : locate p w = inr k -> k = here p w.
Proof.
  unfold locate, here, resolve, path_segments.
  destruct p as [ | c p' ]; [ done | ].
  destruct (starts_with_slash (String c p')).
  - apply follow_key. constructor.
  - intros Hk. apply follow_key in Hk.
    + by rewrite norm_segs_app.
    + apply Forall_rev, norm_segs_rooted. constructor.
Qed.

(** Names are stepped down to without a look. *)
Lemma follow_names f own acc l :
  Forall plain l -> follow f own acc l = inr (rev acc ++ l).
Proof.
  revert own acc. induction l as [ | s r IH ]; intros own acc Hl; simpl.
  - by rewrite app_nil_r.
  - inversion Hl as [ | ? ? Hs Hr ]; subst.
    destruct (plain_step s Hs) as (-> & ->).
    rewrite IH by exact Hr. simpl. by rewrite <- app_assoc.
Qed.

Lemma follow_normal_form f acc l :
  normal_form l -> exists k, follow f 0 acc l = inr k.
Proof.
  intros (pre & names & -> & Hpre & Hnames).
  revert acc. induction Hpre as [ | s pre Hs _ IH ]; intros acc; simpl.
  - rewrite follow_names by exact Hnames. by eexists.
  - destruct (seg_eqb s EmptyString || seg_eqb s ".") eqn:H1; [ apply IH | ].
    destruct (seg_eqb s "..") eqn:H2; [ apply IH | ].
    exfalso. apply Hs. apply orb_false_elim in H1 as (Ha & Hb).
    apply seg_eqb_neq in Ha, Hb, H2. by repeat split.
Qed.

(** *** The text of a path in normal form *)

Lemma split_on_no_sep c s :
  Forall (fun x => Forall (fun d => d <> c) (list_ascii_of_string x))
         (split_on c s).
Proof.
  induction s as [ | x r IH ]; simpl.
  - repeat constructor.
  - destruct (Ascii.eqb_spec x c) as [ -> | Hne ].
    + constructor; [ constructor | exact IH ].
    + destruct (split_on c r) as [ | h t ]; [ repeat constructor; done | ].
      inversion IH as [ | ? ? Hh Ht ]; subst.
      constructor; [ | exact Ht ]. simpl. by constructor.
Qed.

Lemma split_on_word c x r :
  Forall (fun d => d <> c) (list_ascii_of_string x) ->
  split_on c (x +:+ String c r) = x :: split_on c r.
Proof.
  induction x as [ | d x IH ]; simpl; intros Hx.
  - by rewrite Ascii.eqb_refl.
  - inversion Hx as [ | ? ? Hd Hx' ]; subst.
    apply Ascii.eqb_neq in Hd. rewrite Hd. by rewrite IH.
Qed.

Lemma split_on_one c x :
  Forall (fun d => d <> c) (list_ascii_of_string x) ->
  split_on c x = [ x ].
Proof.
  induction x as [ | d x IH ]; simpl; intros Hx; [ done | ].
  inversion Hx as [ | ? ? Hd Hx' ]; subst.
  apply Ascii.eqb_neq in Hd. rewrite Hd. by rewrite IH.
Qed.

Lemma split_on_join c l :
  l <> [] ->
  Forall (fun x => Forall (fun d => d <> c) (list_ascii_of_string x)) l ->
  split_on c (join_with (String c EmptyString) l) = l.
Proof.
  induction l as [ | x r IH ]; [ done | ]. intros _ Hl.
  inversion Hl as [ | ? ? Hx Hr ]; subst.
  destruct r as [ | y r' ].
  - by apply split_on_one.
  - change (join_with (String c EmptyString) (x :: y :: r'))
      with (x +:+ String c (join_with (String c EmptyString) (y :: r'))).
    rewrite split_on_word by exact Hx.
    f_equal. by apply IH.
Qed.

Lemma gathered_normal_form abs acc :
  gathered abs acc -> normal_form (rev acc).
Proof.
  induction acc as [ | t r IH ]; simpl.
  - intros _. exists [], []. by repeat split.
  - intros [ (-> & _ & Hr) | (Ht & Hr) ].
    + exists (rev r ++ [ ".." ]), []. rewrite app_nil_r.
      split; [ done | ]. split; [ | constructor ].
      apply Forall_app. split.
      * apply Forall_rev. eapply Forall_impl; [ exact Hr | ].
        intros s -> (_ & _ & H). by apply H.
      * constructor; [ | constructor ]. intros (_ & _ & H). by apply H.
    + destruct (IH Hr) as (pre & names & Heq & Hpre & Hnames).
      exists pre, (names ++ [ t ]). rewrite Heq, <- app_assoc.
      split; [ done | ]. split; [ exact Hpre | ].
      apply Forall_app. split; [ exact Hnames | by constructor ].
Qed.

Lemma norm_segs_gathered abs acc l :
  gathered abs acc -> exists acc', norm_segs abs acc l = rev acc' /\ gathered abs acc'.
Proof.
  revert acc. induction l as [ | s r IH ]; intros acc Hacc; simpl.
  - by exists acc.
  - destruct (seg_eqb s EmptyString || seg_eqb s ".") eqn:H1; [ by apply IH | ].
    apply orb_false_elim in H1 as (Ha & Hb).
    destruct (seg_eqb s "..") eqn:H2.
    + destruct acc as [ | t acc' ].
      * destruct abs; apply IH; simpl; [ done | ]. left. by repeat split.
      * destruct (seg_eqb t "..") eqn:Ht.
        -- apply IH. apply seg_eqb_eq in Ht as ->.
           simpl in Hacc. destruct Hacc as [ (_ & Habs & Hr) | (Hp & _) ].
           ++ simpl. left. repeat split; [ exact Habs | ].
              by constructor.
           ++ destruct Hp as (_ & _ & H). by destruct H.
        -- apply IH. simpl in Hacc.
           destruct Hacc as [ (-> & _) | (_ & Hr) ]; [ | exact Hr ].
           apply seg_eqb_neq in Ht. by destruct Ht.
    + apply IH. simpl. right. split; [ | exact Hacc ].
      apply seg_eqb_neq in Ha, Hb, H2. by repeat split.
Qed.

Lemma norm_segs_no_slash abs acc l :
  Forall no_slash acc -> Forall no_slash l ->
  Forall no_slash (norm_segs abs acc l).
Proof.
  assert (Hdots : no_slash "..") by (repeat constructor; discriminate).
  revert acc. induction l as [ | s r IH ]; intros acc Hacc Hl; simpl.
  - by apply Forall_rev.
  - inversion Hl as [ | ? ? Hs Hr ]; subst.
    destruct (seg_eqb s EmptyString || seg_eqb s "."); [ by apply IH | ].
    destruct (seg_eqb s "..").
    + destruct acc as [ | t acc' ].
      * destruct abs; apply IH; try done. by constructor.
      * inversion Hacc; subst.
        destruct (seg_eqb t ".."); apply IH; try done. by constructor.
    + apply IH; [ by constructor | exact Hr ].
Qed.

(** The components of a path that [path.normalize] wrote. *)
Lemma rendered_normal_form abs p :
  normal_form (split_on "/"%char
                 (render_path abs (norm_segs abs [] (split_on "/"%char p)))).
Proof.
  destruct (norm_segs_gathered abs [] (split_on "/"%char p) I)
    as (acc & Heq & Hacc).
  assert (Hslash : Forall no_slash (norm_segs abs [] (split_on "/"%char p))).
  { apply norm_segs_no_slash; [ constructor | apply split_on_no_sep ]. }
  pose proof (gathered_normal_form abs acc Hacc) as Hnf.
  rewrite <- Heq in Hnf.
  destruct (norm_segs abs [] (split_on "/"%char p)) as [ | x r ] eqn:Hn.
  - destruct abs; simpl.
    + exists [ EmptyString; EmptyString ], [].
      split; [ done | ]. split; [ | constructor ].
      repeat constructor; intros (H & _); by apply H.
    + exists [ "." ], []. split; [ done | ]. split; [ | constructor ].
      repeat constructor. intros (_ & H & _). by apply H.
  - assert (Hsplit : split_on "/"%char (join_with "/" (x :: r)) = x :: r)
      by (by apply split_on_join).
    destruct abs; unfold render_path.
    + change ("/" +:+ join_with "/" (x :: r))
        with (String "/"%char (join_with "/" (x :: r))).
      cbn [ split_on ]. rewrite Ascii.eqb_refl, Hsplit.
      destruct Hnf as (pre & names & Heq' & Hpre & Hnames).
      exists (EmptyString :: pre), names. rewrite Heq'.
      split; [ done | ]. split; [ | exact Hnames ].
      constructor; [ | exact Hpre ]. intros (H & _). by apply H.
    + by rewrite Hsplit.
Qed.

Lemma gathered_not_empty abs acc :
  gathered abs acc -> Forall (fun s => s <> EmptyString) acc.
Proof.
  induction acc as [ | t r IH ]; simpl; [ constructor | ].
  intros [ (-> & _ & Hr) | ((Ht & _) & Hr) ].
  - constructor; [ done | ].
    eapply Forall_impl; [ exact Hr | ]. by intros s ->.
  - constructor; [ exact Ht | by apply IH ].
Qed.

Lemma rendered_not_empty abs p :
  render_path abs (norm_segs abs [] (split_on "/"%char p)) <> EmptyString.
Proof.
  destruct (norm_segs_gathered abs [] (split_on "/"%char p) I)
    as (acc & Heq & Hacc).
  rewrite Heq. unfold render_path.
  destruct abs; [ done | ].
  pose proof (Forall_rev (gathered_not_empty _ _ Hacc)) as Hne.
  destruct (rev acc) as [ | a l ]; [ done | ].
  inversion Hne as [ | ? ? Ha _ ]; subst.
  destruct a; [ done | ]. by destruct l.
Qed.

(** Such a path can be followed whatever the file system holds, to the
    place its text names. *)
Lemma locate_rendered abs p w :
  let q := render_path abs (norm_segs abs [] (split_on "/"%char p)) in
  locate q w = inr (here q w).
Proof.
  intros q.
  assert (Hsome : exists k, locate q w = inr k).
  { unfold locate.
    destruct q as [ | c q' ] eqn:Hq;
      [ by destruct (rendered_not_empty abs p) | ].
    rewrite <- Hq.
    destruct (starts_with_slash q);
      apply follow_normal_form; apply rendered_normal_form. }
  destruct Hsome as (k & Hk). by rewrite Hk, (locate_here _ _ _ Hk).
Qed.

Lemma locate_path_join a b w :
  locate (path_join a b) w = inr (here (path_join a b) w).
Proof.
  unfold path_join, path_normalize, path_segments.
  destruct a; apply locate_rendered.
Qed.

Lemma locate_canonical d w :
  canonical_dir d -> locate d w = inr (path_segments d).
Proof.
  intros [ Habs Hnorm ].
  pose proof (locate_rendered true d w) as H. cbv zeta in H.
  unfold path_segments in Hnorm. rewrite Habs in Hnorm.
  rewrite Hnorm in H. rewrite H.
  unfold here, resolve. by rewrite Habs.
Qed.

(** In the world of the flow deploy, where [/w] is an empty directory and
    [/home/u] the working directory: *)
Lemma locate_examples :
  locate "/w/missing/.." world_deploy = inl ENOENT
  /\ locate "u/.." world_deploy = inl ENOENT
  /\ locate EmptyString world_deploy = inl ENOENT
  /\ locate "/r/flows.json/.." world_deploy = inl ENOTDIR
  /\ locate "/w/../w/." world_deploy = inr [ "w" ]
  /\ locate ".." world_deploy = inr [ "home" ].
Proof. repeat split; by_evaluation. Qed.

Lemma leads_to_directory_here p w :
  leads_to_directory p w = true ->
  locate p w = inr (here p w) /\ is_dir (fs w) (here p w) = true.
Proof.
  unfold leads_to_directory.
  destruct (locate p w) as [ e | k ] eqn:Hk; [ done | ].
  rewrite <- (locate_here _ _ _ Hk). by split.
Qed.

Lemma leads_somewhere_here p w :
  leads_somewhere p w = true ->
  locate p w = inr (here p w) /\ exists_path (fs w) (here p w) = true.
Proof.
  unfold leads_somewhere.
  destruct (locate p w) as [ e | k ] eqn:Hk; [ done | ].
  rewrite <- (locate_here _ _ _ Hk). by split.
Qed.

(** ** The default of the storage root *)

(** [replace] with a home directory that holds [$]: *)
Lemma replace_first_examples :
  replace_first "$USER_HOME" "/home/u" "$USER_HOME/.flow" = "/home/u/.flow"
  /\ replace_first "$USER_HOME" "/home/u$&" "$USER_HOME/.flow"
     = "/home/u$USER_HOME/.flow"
  /\ replace_first "$USER_HOME" "/home/$$u" "$USER_HOME/.flow"
     = "/home/$u/.flow"
  /\ replace_first "$USER_HOME" "/home/u$'" "$USER_HOME/.flow"
     = "/home/u/.flow/.flow"
  /\ replace_first "$USER_HOME" "/home/u$`" "x$USER_HOME/.flow"
     = "x/home/ux/.flow"
  /\ replace_first "$USER_HOME" "/home/u$1" "$USER_HOME/.flow"
     = "/home/u$1/.flow"
  /\ replace_first "$USER_HOME" "/home/u" "/r" = "/r"
  /\ replace_first "$USER_HOME" "/home/u" "$USER_HOME/$USER_HOME"
     = "/home/u/$USER_HOME".
Proof. repeat split; by_evaluation. Qed.

(** A home directory without [$] is put in as it is. *)
Lemma get_substitution_literal matched before after rep :
  Forall (fun c => c <> "$"%char) (list_ascii_of_string rep) ->
  get_substitution matched before after rep = rep.
Proof.
  induction rep as [ | c t IH ]; simpl; [ done | ].
  intros Hrep. inversion Hrep as [ | ? ? Hc Ht ]; subst.
  apply Ascii.eqb_neq in Hc. rewrite Hc. by rewrite IH.
Qed.

Arguments render_path : simpl never.
Arguments resolve : simpl never.
Arguments path_join : simpl never.
Arguments path_segments : simpl never.
Arguments locate : simpl never.

(** ** Worlds that differ by what was printed *)

Lemma logged_nil w : logged [] w = w.
Proof. destruct w; unfold logged; simpl; by rewrite app_nil_r. Qed.

Lemma logged_logged l1 l2 w : logged l2 (logged l1 w) = logged (l1 ++ l2) w.
Proof. unfold logged; simpl; by rewrite app_assoc. Qed.

Lemma emit_logged e w : emit e w = logged [ e ] w.
Proof. reflexivity. Qed.

Lemma commands_run_app l1 l2 :
  commands_run (l1 ++ l2) = commands_run l1 ++ commands_run l2.
Proof. apply omap_app. Qed.

Lemma questions_asked_app l1 l2 :
  questions_asked (l1 ++ l2) = questions_asked l1 ++ questions_asked l2.
Proof. apply omap_app. Qed.

Lemma quiet_nil : quiet [].
Proof. done. Qed.

Lemma quiet_app l1 l2 : quiet l1 -> quiet l2 -> quiet (l1 ++ l2).
Proof.
  intros [ H1 H2 ] [ H3 H4 ]. split.
  - by rewrite commands_run_app, H1, H3.
  - by rewrite questions_asked_app, H2, H4.
Qed.

Lemma quiet_update_notice w : quiet (update_notice w).
Proof. unfold update_notice. case_bool_decide; done. Qed.

(** ** Running a sequence *)

Lemma bind_Return {A B} (m : M A) (k : A -> M B) w a w' :
  m w = (Return a, w') -> bind m k w = k a w'.
Proof. unfold bind; by intros ->. Qed.

Lemma bind_Throw {A B} (m : M A) (k : A -> M B) w e w' :
  m w = (Throw e, w') -> bind m k w = (Throw e, w').
Proof. unfold bind; by intros ->. Qed.

Lemma bind_Pending {A B} (m : M A) (k : A -> M B) w w' :
  m w = (Pending, w') -> bind m k w = (Pending, w').
Proof. unfold bind; by intros ->. Qed.

Lemma try_catch_Return {A} (m : M A) h w a w' :
  m w = (Return a, w') -> try_catch m h w = (Return a, w').
Proof. unfold try_catch; by intros ->. Qed.

Lemma try_catch_Throw {A} (m : M A) h w e w' :
  m w = (Throw e, w') -> try_catch m h w = h e w'.
Proof. unfold try_catch; by intros ->. Qed.

(** ** Reading the settings and the registry *)

Lemma checkForUpdates_run w :
  checkForUpdates w = (Return tt, logged (update_notice w) w).
Proof.
  unfold checkForUpdates, update_notice, bind, get.
  case_bool_decide; [ reflexivity | ].
  unfold ret. by rewrite logged_nil.
Qed.

Lemma loadConfig_run w :
  loadConfig w = (config_outcome (configFile w), logged (update_notice w) w).
Proof.
  unfold loadConfig.
  erewrite bind_Return by apply checkForUpdates_run.
  unfold try_catch, bind, readConfigFile; simpl.
  destruct (configFile w) as [ [ t | c ] | ]; reflexivity.
Qed.

Lemma loadConfig_ok w c :
  configFile w = Some (ConfigDoc c) ->
  loadConfig w = (Return c, logged (update_notice w) w).
Proof. intros H. rewrite loadConfig_run. by rewrite H. Qed.

Ltac finish_logged :=
  eexists; split;
  [ unfold logged, emit; simpl; rewrite <- ?app_assoc; reflexivity
  | repeat apply quiet_app; auto using quiet_update_notice, quiet_nil; done ].

Lemma loadFlows_run w :
  exists l, loadFlows w = (Return (registry w), logged l w) /\ quiet l.
Proof.
  unfold loadFlows, registry, registry_node, flowsFile.
  erewrite bind_Return by apply checkForUpdates_run.
  unfold try_catch at 1. unfold bind at 1.
  rewrite loadConfig_run. simpl.
  destruct (configFile w) as [ [ t | c ] | ] eqn:Hc; simpl.
  - unfold console_error, modify, bind, ret. finish_logged.
  - unfold bind, try_catch, fs_access, fs_readFile; simpl.
    rewrite !locate_path_join.
    unfold exists_path, is_dir, is_file, here; simpl.
    destruct (node_at (fs w)
                (resolve (cwd w) (path_join (flowDir c) "flows.json")))
      as [ [ | [ t | l ] ] | ] eqn:Hf; simpl;
      rewrite ?locate_path_join; unfold here; simpl; rewrite ?Hf;
      unfold console_error, modify, bind, ret, throw, JSON_parse_flows;
      simpl; rewrite ?Hf; simpl; finish_logged.
  - unfold console_error, modify, bind, ret. finish_logged.
Qed.

(** ** Running and editing a flow *)

Section FlowFound.

Variables (w : World) (flowName : string) (config : Config) (flow : Flow).
Hypothesis Hconfig : configFile w = Some (ConfigDoc config).
Hypothesis Hinit : initialized config = true.
Hypothesis Hfound : List.find (named flowName) (registry w) = Some flow.

Lemma runFlow_found :
  exists l,
    runFlow flowName w
      = scoped "sh " "Running flow: " "Error running flow: " flow (logged l w)
    /\ quiet l.
Proof using Hconfig Hinit Hfound.
  unfold runFlow.
  erewrite bind_Return by apply checkForUpdates_run.
  erewrite bind_Return by (apply loadConfig_ok; exact Hconfig).
  rewrite Hinit; simpl.
  destruct (loadFlows_run (logged (update_notice w) (logged (update_notice w) w)))
    as (l & Hl & Hq).
  erewrite bind_Return by exact Hl.
  change (registry (logged ?a (logged ?b w))) with (registry w).
  change (fun f : Flow => (name f =? flowName)%string) with (named flowName).
  rewrite Hfound. rewrite !logged_logged.
  eexists; split; [ reflexivity | ].
  repeat apply quiet_app; auto using quiet_update_notice.
Qed.

Lemma openFlowForEditing_found :
  exists l,
    openFlowForEditing flowName w
      = scoped "code " "Opening flow for editing: "
               "Error opening flow for editing: " flow (logged l w)
    /\ quiet l.
Proof using Hconfig Hinit Hfound.
  unfold openFlowForEditing.
  erewrite bind_Return by apply checkForUpdates_run.
  erewrite bind_Return by (apply loadConfig_ok; exact Hconfig).
  rewrite Hinit; simpl.
  destruct (loadFlows_run (logged (update_notice w) (logged (update_notice w) w)))
    as (l & Hl & Hq).
  erewrite bind_Return by exact Hl.
  change (registry (logged ?a (logged ?b w))) with (registry w).
  change (fun f : Flow => (name f =? flowName)%string) with (named flowName).
  rewrite Hfound. rewrite !logged_logged.
  eexists; split; [ reflexivity | ].
  repeat apply quiet_app; auto using quiet_update_notice.
Qed.

End FlowFound.

Lemma executeCommand_run command w r f :
  child (host w) command (cwd w) (fs w) = (r, f) ->
  executeCommand command w
    = (match r with
       | Exited stdout stderr => Return (stdout, stderr)
       | ExitedNonZero msg => Throw (mkError msg)
       | SpawnFailed msg => Throw (mkError msg)
       end,
       emit (Spawned command (cwd w)) (set_fs f w)).
Proof.
  intros Hchild. unfold executeCommand. rewrite Hchild. by destruct r.
Qed.

(** The [try] and [catch] of [scoped]: whatever the child does, the block
    ends normally, with the report printed. *)
Lemma attempt_run command failing flow w r f :
  child (host w) (command +:+ script flow) (cwd w) (fs w) = (r, f) ->
  try_catch
    (out <- executeCommand (command +:+ script flow) ;;
     _ <- console_log (fst out) ;;
     if bool_decide (snd out ≠ EmptyString) then console_error (snd out)
     else ret tt)
    (fun error => console_error (failing +:+ message error)) w
  = (Return tt,
     logged (Spawned (command +:+ script flow) (cwd w) :: report failing r)
            (set_fs f w)).
Proof.
  intros Hchild. unfold try_catch, bind.
  rewrite (executeCommand_run _ _ r f Hchild).
  destruct r as [ out err | msg | msg ]; cbn [ report fst snd ];
    try case_bool_decide; same_world.
Qed.

(** Once the flow's directory is entered, what is left of [scoped] is the
    [finally] block. *)
Lemma scoped_entered command starting failing flow w r f :
  leads_to_directory (path flow) w = true ->
  child (host w) (command +:+ script flow) (flow_directory flow w) (fs w)
    = (r, f) ->
  scoped command starting failing flow w
    = (_ <- process_chdir (cwd w) ;; console_log "Finished.")
        (logged ([ Log (starting +:+ name flow);
                   Spawned (command +:+ script flow) (flow_directory flow w) ]
                   ++ report failing r)
                (set_fs f (set_cwd (flow_directory flow w) w))).
Proof.
  intros Hdir Hchild.
  destruct (leads_to_directory_here _ _ Hdir) as (Hloc & Hd).
  unfold scoped.
  erewrite bind_Return by reflexivity.
  erewrite bind_Return
    by (unfold process_chdir; rewrite Hloc, Hd; reflexivity).
  erewrite bind_Return by reflexivity.
  unfold try_finally.
  erewrite attempt_run by exact Hchild.
  match goal with
  | |- match ?m ?w1 with _ => _ end = ?m ?w2 =>
      replace w1 with w2 by (unfold flow_directory; same_world);
      destruct (m w2) as [ [ [] | e | ] w3 ]; reflexivity
  end.
Qed.

(** When the caller's directory is still there, the process is put back
    into it and [scoped] settles normally. *)
Lemma scoped_run command starting failing flow w r f :
  canonical_dir (cwd w) ->
  leads_to_directory (path flow) w = true ->
  child (host w) (command +:+ script flow) (flow_directory flow w) (fs w)
    = (r, f) ->
  is_dir f (path_segments (cwd w)) = true ->
  scoped command starting failing flow w
    = (Return tt,
       logged ([ Log (starting +:+ name flow);
                 Spawned (command +:+ script flow) (flow_directory flow w) ]
                 ++ report failing r ++ [ Log "Finished." ])
              (set_fs f w)).
Proof.
  intros Hcanon Hdir Hchild Hstill.
  rewrite (scoped_entered _ _ _ _ _ r f Hdir Hchild).
  erewrite bind_Return
    by (unfold process_chdir; rewrite (locate_canonical _ _ Hcanon);
        cbn [ fs logged set_fs ]; rewrite Hstill;
        rewrite (proj2 Hcanon); reflexivity).
  same_world.
Qed.

(** When it is not, the [finally] block throws and the process stays in the
    flow's directory. *)
Lemma scoped_stranded command starting failing flow w r f :
  canonical_dir (cwd w) ->
  leads_to_directory (path flow) w = true ->
  child (host w) (command +:+ script flow) (flow_directory flow w) (fs w)
    = (r, f) ->
  is_dir f (path_segments (cwd w)) = false ->
  scoped command starting failing flow w
    = (Throw ENOENT_chdir,
       logged ([ Log (starting +:+ name flow);
                 Spawned (command +:+ script flow) (flow_directory flow w) ]
                 ++ report failing r)
              (set_fs f (set_cwd (flow_directory flow w) w))).
Proof.
  intros Hcanon Hdir Hchild Hgone.
  rewrite (scoped_entered _ _ _ _ _ r f Hdir Hchild).
  erewrite bind_Throw
    by (unfold process_chdir; rewrite (locate_canonical _ _ Hcanon);
        cbn [ fs logged set_fs ]; rewrite Hgone; reflexivity).
  reflexivity.
Qed.

(** When the flow's directory cannot be entered, [scoped] throws at once:
    nothing was changed. *)
Lemma scoped_without_directory command starting failing flow w :
  leads_to_directory (path flow) w = false ->
  scoped command starting failing flow w = (Throw ENOENT_chdir, w).
Proof.
  intros Hdir. unfold scoped.
  erewrite bind_Return by reflexivity.
  erewrite bind_Throw; [ reflexivity | ].
  unfold process_chdir, leads_to_directory in *.
  destruct (locate (path flow) w) as [ e | k ]; [ reflexivity | ].
  cbn [ fs ] in *. by rewrite Hdir.
Qed.

(** A path that can be followed to a directory names one. *)
Lemma not_a_directory p w :
  is_dir (fs w) (here p w) = false -> leads_to_directory p w = false.
Proof.
  intros Hdir. unfold leads_to_directory.
  destruct (locate p w) as [ e | k ] eqn:Hk; [ reflexivity | ].
  by rewrite (locate_here _ _ _ Hk).
Qed.



(** Whether the directory can be restored or not, the child [scoped] starts
    is the given command line on the script, in the flow's directory. *)
Lemma scoped_spawns command starting failing flow w :
  leads_to_directory (path flow) w = true ->
  exists l,
    trace (world_after (scoped command starting failing flow w))
      = trace w ++ l
    /\ commands_run l = [ (command +:+ script flow, flow_directory flow w) ].
Proof.
  intros Hdir.
  destruct (child (host w) (command +:+ script flow)
              (flow_directory flow w) (fs w)) as [ r f ] eqn:Hchild.
  rewrite (scoped_entered _ _ _ _ _ r f Hdir Hchild).
  unfold bind, process_chdir.
  match goal with
  | |- context [ locate ?p ?w1 ] => destruct (locate p w1) as [ e | k ]
  end;
    [ | match goal with
        | |- context [ is_dir ?a ?b ] => destruct (is_dir a b)
        end ];
    (eexists; split;
     [ unfold world_after; cbn; rewrite <- ?app_assoc; reflexivity | ]);
    destruct r as [ out err | msg | msg ]; cbn [ report ];
    try case_bool_decide; reflexivity.
Qed.


(** C10: whatever the settings say (any terminalProfile, powershell and cmd
    included), the one child runFlow starts is "sh <script>" and the one
    child openFlowForEditing starts is "code <script>", in the flow's
    directory, for a flow whose directory can be entered. *)
Theorem run_is_sh_and_edit_is_code w flowName config flow :
  configFile w = Some (ConfigDoc config) ->
  initialized config = true ->
  List.find (named flowName) (registry w) = Some flow ->
  leads_to_directory (path flow) w = true ->
  (exists l,
     trace (world_after (runFlow flowName w)) = trace w ++ l
     /\ commands_run l
        = [ ("sh " +:+ script flow, flow_directory flow w) ])
  /\ (exists l,
        trace (world_after (openFlowForEditing flowName w)) = trace w ++ l
        /\ commands_run l
           = [ ("code " +:+ script flow, flow_directory flow w) ]).
Proof.
  intros Hconfig Hinit Hfound Hdir.
  destruct (runFlow_found w flowName config flow Hconfig Hinit Hfound)
    as (lr & Hrun & Hqr).
  destruct (openFlowForEditing_found w flowName config flow Hconfig Hinit
              Hfound) as (le & Hedit & Hqe).
  rewrite Hrun, Hedit. split.
  - destruct (scoped_spawns "sh " "Running flow: " "Error running flow: "
                flow (logged lr w) Hdir) as (l & Hl & Hc).
    exists (lr ++ l). rewrite Hl. simpl. split; [ by rewrite app_assoc | ].
    by rewrite commands_run_app, (proj1 Hqr), Hc.
  - destruct (scoped_spawns "code " "Opening flow for editing: "
                "Error opening flow for editing: "
                flow (logged le w) Hdir) as (l & Hl & Hc).
    exists (le ++ l). rewrite Hl. simpl. split; [ by rewrite app_assoc | ].
    by rewrite commands_run_app, (proj1 Hqe), Hc.
Qed.




(** ... with the powershell profile configured. *)
Lemma run_is_sh_and_edit_is_code_witness :
  (exists l,
     trace (world_after (runFlow "deploy" world_failing))
       = trace world_failing ++ l
     /\ commands_run l
        = [ ("sh " +:+ script deploy, flow_directory deploy world_failing) ])
  /\ (exists l,
        trace (world_after (openFlowForEditing "deploy" world_failing))
          = trace world_failing ++ l
        /\ commands_run l
           = [ ("code " +:+ script deploy,
                flow_directory deploy world_failing) ]).
Proof.
  apply (run_is_sh_and_edit_is_code world_failing "deploy"
           (settings "powershell" true) deploy).
  - reflexivity.
  - reflexivity.
  - by_evaluation.
  - by_evaluation.
Defined.

(** ** Script generation *)

Lemma split_on_nonempty c s : split_on c s <> [].
Proof.
  destruct s as [ | x r ]; simpl; [ done | ].
  destruct (Ascii.eqb x c); [ done | ].
  destruct (split_on c r); done.
Qed.

(** [replaceAll] is [split] followed by [join]. *)
Lemma replaceAll_split_join c sep s :
  replaceAll c sep s = join_with sep (split_on c s).
Proof.
  induction s as [ | x r IH ]; simpl; [ reflexivity | ].
  destruct (Ascii.eqb x c).
  - rewrite IH. pose proof (split_on_nonempty c r) as Hne.
    destruct (split_on c r) as [ | h t ]; [ done | ]. reflexivity.
  - rewrite IH. pose proof (split_on_nonempty c r) as Hne.
    destruct (split_on c r) as [ | h [ | h' t ] ]; [ done | reflexivity | ].
    reflexivity.
Qed.

(** The policy table, for any command list: header, blank line, and the
    commands joined by the separator of the dialect. *)
Lemma generateScript_table commands :
  generateScript "bash" commands
    = Some ("#!/bin/bash" +:+ nl +:+ nl
              +:+ join_with (nl +:+ nl) (split_on ","%char commands), ".sh")
  /\ generateScript "zsh" commands
    = Some ("#!/bin/zsh" +:+ nl +:+ nl
              +:+ join_with (nl +:+ nl) (split_on ","%char commands), ".sh")
  /\ generateScript "powershell" commands
    = Some ("# PowerShell script content here" +:+ nl +:+ nl
              +:+ join_with nl (split_on ","%char commands), ".ps1")
  /\ generateScript "cmd" commands
    = Some ("@echo off" +:+ nl +:+ nl
              +:+ join_with nl (split_on ","%char commands), ".bat").
Proof.
  unfold generateScript; simpl.
  rewrite !replaceAll_split_join. repeat split; reflexivity.
Qed.

(** Any other profile is the [default] case: no script. *)
Lemma generateScript_unknown profile commands :
  profile <> "bash" -> profile <> "zsh" -> profile <> "powershell" ->
  profile <> "cmd" ->
  generateScript profile commands = None.
Proof.
  intros H1 H2 H3 H4. unfold generateScript.
  repeat match goal with
         | |- context [ String.eqb profile ?s ] =>
             destruct (String.eqb_spec profile s); [ congruence | ]
         end.
  reflexivity.
Qed.

(** C7: for each of the four dialects, the script generated for
    "echo a,echo b" has the header, the statement separator and the file
    extension of the policy table, with "echo a" before "echo b": bash and zsh
    separate by a blank line and give .sh, powershell gives a comment header,
    a single newline and .ps1, cmd gives "@echo off", a single newline and
    .bat. *)
Theorem generateScript_echo_a_echo_b :
  generateScript "bash" "echo a,echo b"
    = Some ("#!/bin/bash" +:+ nl +:+ nl
              +:+ "echo a" +:+ nl +:+ nl +:+ "echo b", ".sh")
  /\ generateScript "zsh" "echo a,echo b"
    = Some ("#!/bin/zsh" +:+ nl +:+ nl
              +:+ "echo a" +:+ nl +:+ nl +:+ "echo b", ".sh")
  /\ generateScript "powershell" "echo a,echo b"
    = Some ("# PowerShell script content here" +:+ nl +:+ nl
              +:+ "echo a" +:+ nl +:+ "echo b", ".ps1")
  /\ generateScript "cmd" "echo a,echo b"
    = Some ("@echo off" +:+ nl +:+ nl
              +:+ "echo a" +:+ nl +:+ "echo b", ".bat").
Proof. repeat split; reflexivity. Qed.

(** ** The initialization gate *)

Ltac run_gate Hconfig Hinit :=
  erewrite bind_Return by apply checkForUpdates_run;
  erewrite bind_Return by (apply loadConfig_ok; exact Hconfig);
  rewrite Hinit; simpl;
  unfold console_log, modify; rewrite emit_logged, !logged_logged;
  eexists; split; [ reflexivity | ]; split;
  [ set_solver
  | repeat apply quiet_app; auto using quiet_update_notice; done ].

Lemma commands_stop_at_gate flowNameEntry flowName :
  stops_at_gate (createFlow flowNameEntry)
  /\ stops_at_gate listFlows
  /\ stops_at_gate (runFlow flowName)
  /\ stops_at_gate (deleteFlow flowName)
  /\ stops_at_gate (openFlowForEditing flowName).
Proof.
  repeat split; intros w config Hconfig Hinit.
  - unfold createFlow. run_gate Hconfig Hinit.
  - unfold listFlows. run_gate Hconfig Hinit.
  - unfold runFlow. run_gate Hconfig Hinit.
  - unfold deleteFlow. run_gate Hconfig Hinit.
  - unfold openFlowForEditing. run_gate Hconfig Hinit.
Qed.

Lemma stops_at_gate_refuses op : stops_at_gate op -> refuses_uninitialized op.
Proof.
  intros H w config Hconfig Hinit.
  destruct (H w config Hconfig Hinit) as (l & -> & Hin & _).
  split; [ by repeat split | ].
  exists l. by split.
Qed.

(** C2 (as amended): create, list, run, delete and edit, when the settings
    say initialized == false, print the not-initialized message and leave
    settings, registry and files as they were. *)
Theorem uninitialized_commands_refused flowNameEntry flowName :
  refuses_uninitialized (createFlow flowNameEntry)
  /\ refuses_uninitialized listFlows
  /\ refuses_uninitialized (runFlow flowName)
  /\ refuses_uninitialized (deleteFlow flowName)
  /\ refuses_uninitialized (openFlowForEditing flowName).
Proof.
  destruct (commands_stop_at_gate flowNameEntry flowName)
    as (H1 & H2 & H3 & H4 & H5).
  split; [ | split; [ | split; [ | split ] ] ];
    by apply stops_at_gate_refuses.
Qed.

(** ... for delete, in a world that is not initialized and holds a flow. *)
Lemma uninitialized_commands_refused_witness :
  same_store world_uninitialized_deploy
             (world_after (deleteFlow "deploy" world_uninitialized_deploy))
  /\ exists l,
       trace (world_after (deleteFlow "deploy" world_uninitialized_deploy))
         = trace world_uninitialized_deploy ++ l
       /\ Log NOT_INITIALIZED ∈ l.
Proof.
  apply (proj1 (proj2 (proj2 (proj2
           (uninitialized_commands_refused true "deploy"))))
           world_uninitialized_deploy (settings "bash" false)).
  - reflexivity.
  - reflexivity.
Defined.

(** What reinit does in a world that is not initialized but holds a flow:
    the storage root is removed and the settings are rewritten, and the
    not-initialized message is not printed. *)
Lemma reinitialize_uninitialized_deletes :
  let w' := world_after (reinitialize world_uninitialized_deploy) in
  configFile world_uninitialized_deploy
    = Some (ConfigDoc (settings "bash" false))
  /\ configFile w'
     = Some (ConfigDoc (mkConfig "zsh" "/new" "/new/commands" "." true))
  /\ node_at (fs world_uninitialized_deploy) [ "r"; "flows.json" ]
     = Some (File (FlowsDoc [ deploy ]))
  /\ node_at (fs w') [ "r"; "flows.json" ] = None
  /\ trace w'
     = [ Asked "verification"; Spawned "rm -rf /r" "/home/u";
         Asked "terminalProfile"; Asked "flowLocation";
         Log "Flow manager initialized successfully!" ].
Proof. vm_compute. repeat split; reflexivity. Qed.

(** C2, counterexample: reinit has no such gate. *)
Lemma reinitialize_not_refused : ~ refuses_uninitialized reinitialize.
Proof.
  intros H.
  destruct (H world_uninitialized_deploy (settings "bash" false)
              eq_refl eq_refl) as ((Hsettings & _) & _).
  vm_compute in Hsettings. discriminate Hsettings.
Qed.

(** ** Loading and saving the registry *)

(** C5 (as amended): when the registry file does not exist, loadFlows
    settles with the empty list and prints no error; when the file holds text
    that is not JSON, loadFlows prints "Error loading flows: ..." on the
    error stream and settles with the empty list as well.  In both cases
    nothing but the trace changes. *)
Theorem loadFlows_missing_or_malformed w config :
  configFile w = Some (ConfigDoc config) ->
  (registry_node config w = None ->
   loadFlows w
     = (Return [], logged (update_notice w ++ update_notice w) w))
  /\ (forall text,
        registry_node config w = Some (File (Plain text)) ->
        loadFlows w
          = (Return [],
             logged (update_notice w ++ update_notice w
                       ++ [ LogError ("Error loading flows: "
                                        +:+ message SyntaxError) ]) w)).
Proof.
  intros Hconfig.
  unfold registry_node, flowsFile, here.
  split; [ intros Hnode | intros text Hnode ];
    unfold loadFlows;
    (erewrite bind_Return by apply checkForUpdates_run);
    unfold try_catch at 1; unfold bind at 1;
    rewrite loadConfig_run; simpl; rewrite Hconfig; simpl;
    unfold bind, try_catch, fs_access, fs_readFile; simpl;
    rewrite ?locate_path_join;
    unfold exists_path, is_dir, is_file, here; simpl; rewrite Hnode; simpl;
    rewrite ?locate_path_join; unfold here; simpl; rewrite ?Hnode; simpl;
    unfold console_error, modify, bind, ret, throw, logged, emit; simpl;
    rewrite <- ?app_assoc; reflexivity.
Qed.

(** ... with no registry file, and with a registry file that holds "[{". *)
Lemma loadFlows_missing_or_malformed_witness :
  loadFlows world_initialized
    = (Return [],
       logged (update_notice world_initialized
                 ++ update_notice world_initialized) world_initialized)
  /\ loadFlows world_malformed
     = (Return [],
        logged (update_notice world_malformed
                  ++ update_notice world_malformed
                  ++ [ LogError ("Error loading flows: "
                                   +:+ message SyntaxError) ])
               world_malformed).
Proof.
  split.
  - apply (proj1 (loadFlows_missing_or_malformed world_initialized
                    (settings "bash" true) eq_refl)).
    vm_compute. reflexivity.
  - apply (proj2 (loadFlows_missing_or_malformed world_malformed
                    (settings "bash" true) eq_refl) "[{").
    vm_compute. reflexivity.
Defined.

(** C5, counterexample: a registry file that is not JSON gives the empty
    list, not an error. *)
Lemma loadFlows_malformed_is_no_error :
  ~ surfaces_malformed_registry loadFlows.
Proof.
  intros H.
  destruct (H world_malformed (settings "bash" true) "[{" eq_refl)
    as (e & He).
  - vm_compute. reflexivity.
  - vm_compute in He. discriminate He.
Qed.

(** A write that fails leaves everything as it was. *)
Lemma fs_writeFile_Throw p d w e l :
  outcome (fs_writeFile p d w) = Throw e ->
  fs_writeFile p d (logged l w) = (Throw e, logged l w).
Proof.
  unfold fs_writeFile, outcome.
  change (locate p (logged l w)) with (locate p w).
  change (fs (logged l w)) with (fs w).
  destruct (locate p w) as [ e' | k ]; simpl; [ by intros [= ->] | ].
  destruct (is_dir (fs w) k); simpl; [ by intros [= ->] | ].
  destruct (is_dir (fs w) (parent k)); simpl; [ done | ].
  destruct (exists_path (fs w) (parent k)); simpl; by intros [= ->].
Qed.

(** C8 (as amended): when the write of the registry file fails, saveFlows
    prints "Error saving flows: ..." on the error stream and settles
    normally; the error does not reach the caller, and nothing but the trace
    changes.  So the statement that follows [await saveFlows(flows)] in
    createFlow, the report of success, is carried out. *)
Theorem saveFlows_write_error_is_logged w config flows e :
  configFile w = Some (ConfigDoc config) ->
  outcome (fs_writeFile (path_join (flowDir config) "flows.json")
                        (FlowsDoc flows) w) = Throw e ->
  saveFlows flows w
    = (Return tt,
       logged (update_notice w
                 ++ [ LogError ("Error saving flows: " +:+ message e) ]) w)
  /\ forall scriptFile,
       (_ <- saveFlows flows ;;
        console_log ("Flow created successfully! File location: "
                       +:+ scriptFile)) w
       = (Return tt,
          logged (update_notice w
                    ++ [ LogError ("Error saving flows: " +:+ message e);
                         Log ("Flow created successfully! File location: "
                                +:+ scriptFile) ]) w).
Proof.
  intros Hconfig Hwrite.
  assert (Hsave : saveFlows flows w
                  = (Return tt,
                     logged (update_notice w
                               ++ [ LogError ("Error saving flows: "
                                                +:+ message e) ]) w)).
  { unfold saveFlows.
    erewrite bind_Return by (apply loadConfig_ok; exact Hconfig).
    unfold try_catch.
    rewrite (fs_writeFile_Throw _ _ _ _ _ Hwrite). same_world. }
  split; [ exact Hsave | ].
  intros scriptFile.
  erewrite bind_Return by exact Hsave.
  unfold console_log, modify. rewrite emit_logged, logged_logged.
  by rewrite <- app_assoc.
Qed.

(** ... where flows.json is a directory. *)
Lemma saveFlows_write_error_is_logged_witness :
  saveFlows [ deploy ] world_unwritable
    = (Return tt,
       logged (update_notice world_unwritable
                 ++ [ LogError ("Error saving flows: " +:+ message EISDIR) ])
              world_unwritable)
  /\ forall scriptFile,
       (_ <- saveFlows [ deploy ] ;;
        console_log ("Flow created successfully! File location: "
                       +:+ scriptFile)) world_unwritable
       = (Return tt,
          logged (update_notice world_unwritable
                    ++ [ LogError ("Error saving flows: " +:+ message EISDIR);
                         Log ("Flow created successfully! File location: "
                                +:+ scriptFile) ]) world_unwritable).
Proof.
  apply (saveFlows_write_error_is_logged world_unwritable
           (settings "bash" true) [ deploy ] EISDIR).
  - reflexivity.
  - vm_compute. reflexivity.
Defined.

(** What createFlow does when the registry cannot be written: the script is
    written, the registry is not, and success is reported. *)
Lemma createFlow_reports_success_without_registry :
  let w' := world_after (createFlow_answered (settings "bash" true) "deploy"
                           "/w" "echo a,echo b" world_unwritable) in
  node_at (fs w') [ "r"; "commands"; "deploy"; "script.sh" ]
    = Some (File (Plain deploy_script))
  /\ node_at (fs w') [ "r"; "flows.json" ] = Some Dir
  /\ trace w'
     = [ LogError "Error loading flows: EISDIR: illegal operation on a directory";
         LogError "Error saving flows: EISDIR: illegal operation on a directory";
         Log "Flow created successfully! File location: /r/commands/deploy/script.sh" ].
Proof. vm_compute. repeat split; reflexivity. Qed.

(** C8, counterexample: a failed write of the registry file is not an error
    of saveFlows. *)
Lemma saveFlows_write_error_not_surfaced : ~ surfaces_write_error saveFlows.
Proof.
  intros H.
  destruct (H world_unwritable (settings "bash" true) [ deploy ] EISDIR eq_refl)
    as (e & He).
  - vm_compute. reflexivity.
  - vm_compute in He. discriminate He.
Qed.

(** ** Deleting a flow *)

Lemma findIndex_find pred (l : list Flow) f :
  List.find pred l = Some f ->
  exists i, findIndex pred l = Some i /\ l !! i = Some f.
Proof.
  induction l as [ | x r IH ]; simpl; [ done | ].
  destruct (pred x).
  - intros [= ->]. by exists 0.
  - intros H. destruct (IH H) as (i & -> & Hi). by exists (S i).
Qed.

(** When the script cannot be removed, deleteFlow reports it and leaves the
    registry and everything else as it was. *)
Lemma deleteFlow_failed_removal w flowName config flow :
  configFile w = Some (ConfigDoc config) ->
  initialized config = true ->
  List.find (named flowName) (registry w) = Some flow ->
  leads_somewhere (script flow) w = false ->
  exists l e,
    deleteFlow flowName w = (Return tt, logged l w)
    /\ LogError ("Error deleting flow: " +:+ message e) ∈ l.
Proof.
  intros Hconfig Hinit Hfound Hmissing.
  unfold deleteFlow.
  erewrite bind_Return by apply checkForUpdates_run.
  erewrite bind_Return by (apply loadConfig_ok; exact Hconfig).
  rewrite Hinit; simpl.
  destruct (loadFlows_run (logged (update_notice w) (logged (update_notice w) w)))
    as (l & Hl & Hq).
  erewrite bind_Return by exact Hl.
  change (registry (logged ?a (logged ?b w))) with (registry w).
  change (fun f : Flow => (name f =? flowName)%string) with (named flowName).
  destruct (findIndex_find _ _ _ Hfound) as (i & -> & ->).
  unfold try_catch, bind, fs_rm_recursive, leads_somewhere in *.
  change (locate (script flow) (logged ?a (logged ?b (logged ?c w))))
    with (locate (script flow) w).
  destruct (locate (script flow) w) as [ e | k ]; cbn [ fs logged ];
    rewrite ?Hmissing;
    unfold console_error, modify; rewrite emit_logged, !logged_logged;
    eexists; eexists;
    (split;
     [ reflexivity
     | repeat (apply elem_of_app; right); apply list_elem_of_here ]).
Qed.

Lemma not_under_itself (k : list string) :
  k <> [] -> ~ k `prefix_of` parent k.
Proof.
  intros Hk Hp. apply prefix_length in Hp.
  unfold parent in Hp. rewrite removelast_firstn_len, length_take in Hp.
  destruct k; [ done | simpl in Hp; lia ].
Qed.

Lemma is_dir_remove_tree (f : FS) (k p : list string) :
  ~ k `prefix_of` p -> is_dir (remove_tree k f) p = is_dir f p.
Proof.
  intros Hp. unfold is_dir, node_at, remove_tree.
  destruct p as [ | s r ]; [ reflexivity | ].
  destruct (f !! (s :: r)) as [ n | ] eqn:Hf.
  - erewrite (proj2 (map_lookup_filter_Some _ f (s :: r) n)); [ done | ].
    split; [ exact Hf | exact Hp ].
  - rewrite map_lookup_filter_None_2; [ done | by left ].
Qed.

Lemma is_dir_insert_file (f : FS) (k p : list string) d :
  is_dir f k = false -> is_dir (<[ k := File d ]> f) p = is_dir f p.
Proof.
  intros Hk. unfold is_dir, node_at in *.
  destruct p as [ | s r ]; [ reflexivity | ].
  destruct (decide (k = s :: r)) as [ -> | Hne ].
  - rewrite lookup_insert_eq.
    destruct (f !! (s :: r)) as [ [ | ] | ]; done.
  - by rewrite lookup_insert_ne.
Qed.

(** Whatever the flow, the directory that holds its script is still there
    after deleteFlow. *)
Lemma deleteFlow_keeps_script_directory w flowName config flow :
  configFile w = Some (ConfigDoc config) ->
  initialized config = true ->
  List.find (named flowName) (registry w) = Some flow ->
  here (script flow) w <> [] ->
  is_dir (fs w) (parent (here (script flow) w)) = true ->
  is_dir (fs (world_after (deleteFlow flowName w)))
         (parent (here (script flow) w)) = true.
Proof.
  intros Hconfig Hinit Hfound Hk Hparent.
  unfold deleteFlow, world_after.
  erewrite bind_Return by apply checkForUpdates_run.
  erewrite bind_Return by (apply loadConfig_ok; exact Hconfig).
  rewrite Hinit; simpl.
  destruct (loadFlows_run (logged (update_notice w) (logged (update_notice w) w)))
    as (l & Hl & Hq).
  erewrite bind_Return by exact Hl.
  change (registry (logged ?a (logged ?b w))) with (registry w).
  change (fun f : Flow => (name f =? flowName)%string) with (named flowName).
  destruct (findIndex_find _ _ _ Hfound) as (i & -> & ->).
  unfold try_catch at 1. unfold bind at 1. unfold fs_rm_recursive.
  change (locate (script flow) (logged ?a (logged ?b (logged ?c w))))
    with (locate (script flow) w).
  destruct (locate (script flow) w) as [ e | k ] eqn:Hloc;
    [ exact Hparent | ].
  rewrite (locate_here _ _ _ Hloc). unfold here in *. simpl.
  destruct (exists_path (fs w) (resolve (cwd w) (script flow))); simpl;
    [ | exact Hparent ].
  unfold bind at 1. unfold saveFlows.
  erewrite bind_Return by (apply loadConfig_ok; exact Hconfig).
  unfold try_catch, fs_writeFile. rewrite locate_path_join.
  unfold here; simpl.
  pose proof (is_dir_remove_tree (fs w) _ _ (not_under_itself _ Hk)) as Hkeep.
  repeat match goal with
         | |- context [ if ?b then _ else _ ] => destruct b eqn:?
         end; simpl; rewrite ?is_dir_insert_file by assumption;
    rewrite Hkeep; exact Hparent.
Qed.

(** C3: in the world with the one flow deploy, deleteFlow removes the script
    file and then the record, and reports success, but the flow's own
    directory /r/commands/deploy is still there. *)
Theorem deleteFlow_leaves_flow_directory :
  let w' := world_after (deleteFlow "deploy" world_deploy) in
  script deploy = "/r/commands/deploy/script.sh"
  /\ registry world_deploy = [ deploy ]
  /\ outcome (deleteFlow "deploy" world_deploy) = Return tt
  /\ node_at (fs w') [ "r"; "commands"; "deploy"; "script.sh" ] = None
  /\ registry w' = []
  /\ node_at (fs w') [ "r"; "commands"; "deploy" ] = Some Dir
  /\ trace w' = [ Log "Flow deleted successfully!" ].
Proof. vm_compute. repeat split; reflexivity. Qed.

(** ** Reinitializing *)

(** With an empty registry reinit asks nothing, starts nothing and changes
    nothing. *)
Lemma reinitialize_no_flows w config :
  configFile w = Some (ConfigDoc config) ->
  registry w = [] ->
  exists l, reinitialize w = (Return tt, logged l w) /\ quiet l.
Proof.
  intros Hconfig Hempty.
  unfold reinitialize.
  erewrite bind_Return by apply checkForUpdates_run.
  erewrite bind_Return by (apply loadConfig_ok; exact Hconfig).
  destruct (loadFlows_run (logged (update_notice w) (logged (update_notice w) w)))
    as (l & Hl & Hq).
  erewrite bind_Return by exact Hl.
  change (registry (logged ?a (logged ?b w))) with (registry w).
  rewrite Hempty; simpl. unfold ret. rewrite !logged_logged.
  eexists; split; [ reflexivity | ].
  repeat apply quiet_app; auto using quiet_update_notice.
Qed.

(** C4: with no flows stored, reinit leaves the world exactly as it found
    it, whether the settings say initialized or not: the questions of flow
    init are not asked (the answers stay unread), no new root or dialect is
    taken and initialized is not set. *)
Theorem reinitialize_without_flows_does_nothing :
  registry (world_no_flows false) = []
  /\ reinitialize (world_no_flows false) = (Return tt, world_no_flows false)
  /\ configFile (world_after (reinitialize (world_no_flows false)))
     = Some (ConfigDoc (mkConfig "bash" "/r" "/r/commands" "." false))
  /\ registry (world_no_flows true) = []
  /\ reinitialize (world_no_flows true) = (Return tt, world_no_flows true)
  /\ stdin (world_after (reinitialize (world_no_flows true)))
     = [ "zsh"; "/new" ].
Proof. vm_compute. repeat split; reflexivity. Qed.

(** What flow init itself does in the same world: it asks both questions and
    sets initialized. *)
Lemma initialize_collects_root_and_dialect :
  let w' := world_after (initialize (world_no_flows false)) in
  configFile w'
    = Some (ConfigDoc (mkConfig "zsh" "/new" "/new/commands" "." true))
  /\ questions_asked (trace w') = [ "terminalProfile"; "flowLocation" ].
Proof. vm_compute. repeat split; reflexivity. Qed.

(** ** Creating a flow *)

(** The [validate] callback of the flow name never answers [true]: a name
    outside the pattern is refused, and for a name inside it [loadFlows()]
    is started and [flows.find] throws, which the callback turns into the
    same message.  Nothing but the trace changes. *)
Lemma validateFlowName_never_accepts value w :
  exists l,
    validateFlowName value w
      = (Return (Invalid "Please enter a valid flow name"), logged l w)
    /\ quiet l.
Proof.
  unfold validateFlowName, try_catch.
  destruct (flowNamePattern value); simpl.
  - destruct (loadFlows_run w) as (l & Hl & Hq).
    exists l. unfold bind, detached. rewrite Hl. simpl.
    split; [ reflexivity | exact Hq ].
  - exists []. rewrite logged_nil. split; [ reflexivity | apply quiet_nil ].
Qed.

(** So the question for the flow name is never answered, whatever is
    typed. *)
Lemma flowName_prompt_pending lines w :
  exists w',
    read_answer None validateFlowName lines w = (Pending, w')
    /\ same_store w w'
    /\ commands_run (trace w') = commands_run (trace w).
Proof.
  revert w. induction lines as [ | line rest IH ]; intros w; simpl.
  - exists w. by repeat split.
  - unfold bind at 1. unfold modify at 1.
    unfold bind at 1.
    destruct (validateFlowName_never_accepts
                match line with
                | EmptyString => line
                | String _ _ => line
                end (set_stdin rest w)) as (l & -> & Hq).
    unfold bind at 1. unfold modify at 1.
    destruct (IH (emit (Rejected "Please enter a valid flow name")
                       (logged l (set_stdin rest w))))
      as (w' & -> & (H1 & H2 & H3) & Hc).
    exists w'. split; [ reflexivity | ]. split.
    + repeat split; [ rewrite H1 | rewrite H2 | rewrite H3 ]; reflexivity.
    + rewrite Hc. cbn [ trace emit logged set_stdin ].
      rewrite !commands_run_app, (proj1 Hq). cbn. by rewrite !app_nil_r.
Qed.

Lemma flowName_question_pending w :
  exists w',
    prompt_input "flowName" None validateFlowName w = (Pending, w')
    /\ same_store w w'
    /\ commands_run (trace w') = commands_run (trace w).
Proof.
  unfold prompt_input.
  erewrite bind_Return by reflexivity.
  erewrite bind_Return by reflexivity.
  destruct (flowName_prompt_pending
              (stdin (emit (Asked "flowName") w)) (emit (Asked "flowName") w))
    as (w' & Hp & Hs & Hc).
  exists w'. split; [ exact Hp | ]. split; [ exact Hs | ].
  rewrite Hc. cbn [ trace emit ]. rewrite commands_run_app. cbn.
  by rewrite app_nil_r.
Qed.

(** Called with the [argv] of yargs, as [flow create] does, createFlow gets
    as far as [inquirer.prompt(questions)], which rejects at the first
    element: nothing was asked, nothing is written. *)
Lemma createFlow_rejects w config :
  configFile w = Some (ConfigDoc config) ->
  initialized config = true ->
  exists l,
    createFlow true w = (Throw MISSING_NAME, logged l w) /\ quiet l.
Proof.
  intros Hconfig Hinit.
  unfold createFlow.
  erewrite bind_Return by apply checkForUpdates_run.
  erewrite bind_Return by (apply loadConfig_ok; exact Hconfig).
  rewrite Hinit. cbn [ negb ].
  erewrite bind_Return by reflexivity.
  erewrite bind_Return by reflexivity.
  erewrite bind_Throw by reflexivity.
  rewrite logged_logged.
  eexists; split; [ reflexivity | ].
  repeat apply quiet_app; auto using quiet_update_notice.
Qed.

(** Called without an argument, createFlow never gets past its first
    question: it stays pending and writes nothing. *)
Lemma createFlow_never_settles w config :
  configFile w = Some (ConfigDoc config) ->
  initialized config = true ->
  outcome (createFlow false w) = Pending
  /\ same_store w (world_after (createFlow false w))
  /\ commands_run (trace (world_after (createFlow false w)))
     = commands_run (trace w).
Proof.
  intros Hconfig Hinit.
  unfold createFlow.
  erewrite bind_Return by apply checkForUpdates_run.
  erewrite bind_Return by (apply loadConfig_ok; exact Hconfig).
  rewrite Hinit. cbn [ negb ].
  destruct (flowName_question_pending
              (logged (update_notice w) (logged (update_notice w) w)))
    as (w' & Hp & Hs & Hc).
  erewrite bind_Pending
    by (erewrite bind_Pending by exact Hp; reflexivity).
  split; [ reflexivity | ]. split; [ exact Hs | ].
  unfold world_after; cbn [ snd ]. rewrite Hc.
  cbn [ trace logged ]. rewrite !commands_run_app.
  rewrite (proj1 (quiet_update_notice w)). by rewrite !app_nil_r.
Qed.

Lemma mkdir_p_keeps (f f' : FS) (pre rest k : list string) n :
  mkdir_p f pre rest = Some f' -> f !! k = Some n -> f' !! k = Some n.
Proof.
  revert f pre. induction rest as [ | s r IH ]; intros f pre; simpl.
  - by intros [= ->].
  - destruct (is_file f (pre ++ [ s ])) eqn:Hfile; [ done | ].
    intros Hmk Hk. apply (IH _ _ Hmk).
    destruct (decide (pre ++ [ s ] = k)) as [ <- | Hne ].
    + rewrite lookup_insert_eq. unfold is_file, node_at in Hfile.
      destruct (pre ++ [ s ]) eqn:Hp; [ by destruct pre | ].
      rewrite Hk in Hfile. by destruct n.
    + by rewrite lookup_insert_ne.
Qed.

Lemma node_at_lookup (f : FS) (k : list string) d :
  node_at f k = Some (File d) -> k <> [] /\ f !! k = Some (File d).
Proof. destruct k; [ done | ]. by split. Qed.

Lemma is_dir_lookup (f f' : FS) (k : list string) :
  (forall n, f !! k = Some n -> f' !! k = Some n) ->
  is_dir f k = true -> is_dir f' k = true.
Proof.
  intros H. unfold is_dir, node_at. destruct k as [ | s r ]; [ done | ].
  destruct (f !! (s :: r)) as [ [ | d ] | ] eqn:Hf; try done.
  by rewrite (H _ eq_refl).
Qed.

(** C6: in the world with the one flow deploy, no flow is ever created.
    (1) As [flow create] calls it, with the [argv] of yargs, createFlow
    rejects with the error of inquirer before any question is asked; the
    names the user is ready to type stay unread and flow list shows deploy
    alone.  (2) Called without an argument, createFlow refuses the new,
    well-formed names build, build-2 and build_3 with "Please enter a valid
    flow name", stays pending and leaves the registry without them. *)
Theorem createFlow_never_registers :
  let invoked := createFlow true world_create in
  let called := createFlow false world_create in
  forallb flowNamePattern [ "build"; "build-2"; "build_3" ] = true
  /\ registry world_create = [ deploy ]
  /\ outcome invoked = Throw MISSING_NAME
  /\ world_after invoked = world_create
  /\ trace (world_after (listFlows (world_after invoked)))
     = [ Log "List of flows:"; Log "deploy" ]
  /\ outcome called = Pending
  /\ trace (world_after called)
     = [ Asked "flowName";
         Rejected "Please enter a valid flow name";
         Rejected "Please enter a valid flow name";
         Rejected "Please enter a valid flow name" ]
  /\ registry (world_after called) = [ deploy ].
Proof. repeat split; by_evaluation. Qed.

(** ** Moving the storage root *)

(** C9: in the world with the one flow deploy, reinit with the choice Move
    moves /r to /new with everything in it, and the record of deploy is kept
    as it was; its script is still /r/commands/deploy/script.sh, where there
    is no file any more (the file is now /new/commands/deploy/script.sh).
    This is so however the shell's move command ends; when it ends with
    status 0 the settings point to /new, and runFlow then hands the missing
    path to sh. *)
Theorem reinitialize_move_leaves_script_paths_behind
    (moved : ExecResult) (out err : string) :
  let w' := world_after (reinitialize (world_move moved)) in
  let w'' := world_after (reinitialize (world_move (Exited out err))) in
  node_at (fs w') [ "new"; "flows.json" ] = Some (File (FlowsDoc [ deploy ]))
  /\ script deploy = "/r/commands/deploy/script.sh"
  /\ node_at (fs w') (here (script deploy) w') = None
  /\ node_at (fs w') [ "new"; "commands"; "deploy"; "script.sh" ]
     = Some (File (Plain deploy_script))
  /\ node_at (fs w') [ "r" ] = None
  /\ configFile w''
     = Some (ConfigDoc (mkConfig "bash" "/new" "/new/commands" "." true))
  /\ registry w'' = [ deploy ]
  /\ commands_run (trace (world_after (runFlow "deploy" w'')))
     = [ ("mv /r /new; echo " +:+ COMPLETED_MOVE +:+ "/new", "/home/u");
         ("sh /r/commands/deploy/script.sh", "/w") ].
Proof.
  destruct moved as [ out' err' | msg | msg ]; vm_compute;
    repeat split; reflexivity.
Qed.

(** * Further properties *)

(** ** The settings file *)

Lemma saveConfig_run config w :
  saveConfig config w
    = if configWritable w then
        (Return tt,
         logged (update_notice w) (set_configFile (Some (ConfigDoc config)) w))
      else
        (Throw (mkError ("Failed to save config.json: " +:+ message EACCES)),
         logged (update_notice w) w).
Proof.
  unfold saveConfig.
  erewrite bind_Return by apply checkForUpdates_run.
  unfold try_catch, writeConfigFile; simpl.
  destruct (configWritable w); reflexivity.
Qed.

(** X1: what saveConfig writes is what loadConfig reads next, whatever
    config.json held before (missing and malformed included); the files of
    the flows are not touched. *)
Theorem saveConfig_then_loadConfig config w :
  configWritable w = true ->
  outcome ((_ <- saveConfig config ;; loadConfig) w) = Return config
  /\ fs (world_after ((_ <- saveConfig config ;; loadConfig) w)) = fs w.
Proof.
  intros Hw.
  erewrite bind_Return by (rewrite saveConfig_run, Hw; reflexivity).
  rewrite loadConfig_run. split; reflexivity.
Qed.

(** ... where config.json does not exist yet. *)
Lemma saveConfig_then_loadConfig_witness :
  outcome ((_ <- saveConfig (settings "zsh" true) ;; loadConfig)
             world_no_config) = Return (settings "zsh" true)
  /\ fs (world_after ((_ <- saveConfig (settings "zsh" true) ;; loadConfig)
                        world_no_config)) = fs world_no_config.
Proof.
  apply (saveConfig_then_loadConfig (settings "zsh" true) world_no_config).
  reflexivity.
Defined.

(** X2: when config.json cannot be written, saveConfig and resetConfig
    reject with "Failed to save config.json: ..." and the settings stay as
    they were. *)
Theorem unwritable_settings_are_kept config w :
  configFile w = Some (ConfigDoc config) ->
  configWritable w = false ->
  let failure :=
    mkError ("Failed to save config.json: " +:+ message EACCES) in
  (forall config', outcome (saveConfig config' w) = Throw failure
                   /\ same_store w (world_after (saveConfig config' w)))
  /\ outcome (resetConfig w) = Throw failure
  /\ same_store w (world_after (resetConfig w)).
Proof.
  intros Hconfig Hw failure. split; [ | ].
  - intros config'. rewrite saveConfig_run, Hw. by repeat split.
  - unfold resetConfig.
    erewrite bind_Return by (apply loadConfig_ok; exact Hconfig).
    erewrite bind_Return by reflexivity.
    rewrite saveConfig_run. simpl. rewrite Hw. by repeat split.
Qed.

Lemma unwritable_settings_are_kept_witness :
  (forall config',
     outcome (saveConfig config' world_readonly_config)
       = Throw (mkError ("Failed to save config.json: " +:+ message EACCES))
     /\ same_store world_readonly_config
                   (world_after (saveConfig config' world_readonly_config)))
  /\ outcome (resetConfig world_readonly_config)
     = Throw (mkError ("Failed to save config.json: " +:+ message EACCES))
  /\ same_store world_readonly_config
                (world_after (resetConfig world_readonly_config)).
Proof.
  apply (unwritable_settings_are_kept (settings "bash" true)
           world_readonly_config).
  - reflexivity.
  - reflexivity.
Defined.

Ltac run_unreadable H :=
  rewrite ?(bind_Return _ _ _ _ _ (checkForUpdates_run _));
  erewrite bind_Throw by (rewrite loadConfig_run; simpl; rewrite H; reflexivity);
  rewrite ?logged_logged;
  eexists; split; [ reflexivity | ];
  repeat apply quiet_app; auto using quiet_update_notice.

(** X3: when config.json is missing or is not JSON, every command rejects
    with "Failed to load config.json: ..." before it asks, starts or changes
    anything. *)
Theorem commands_reject_unreadable_settings flowNameEntry flowName :
  rejects_unreadable_settings initialize
  /\ rejects_unreadable_settings (createFlow flowNameEntry)
  /\ rejects_unreadable_settings listFlows
  /\ rejects_unreadable_settings (runFlow flowName)
  /\ rejects_unreadable_settings (deleteFlow flowName)
  /\ rejects_unreadable_settings reinitialize
  /\ rejects_unreadable_settings (openFlowForEditing flowName)
  /\ rejects_unreadable_settings resetConfig.
Proof.
  repeat split; intros w e He.
  - unfold initialize. run_unreadable He.
  - unfold createFlow. run_unreadable He.
  - unfold listFlows. run_unreadable He.
  - unfold runFlow. run_unreadable He.
  - unfold deleteFlow. run_unreadable He.
  - unfold reinitialize. run_unreadable He.
  - unfold openFlowForEditing. run_unreadable He.
  - unfold resetConfig. run_unreadable He.
Qed.

(** ... for list, without config.json. *)
Lemma commands_reject_unreadable_settings_witness :
  exists l,
    listFlows world_no_config
      = (Throw (mkError ("Failed to load config.json: " +:+ message ENOENT)),
         logged l world_no_config)
    /\ quiet l.
Proof.
  apply (proj1 (proj2 (proj2 (commands_reject_unreadable_settings true
                                "deploy")))
           world_no_config).
  reflexivity.
Defined.

(** X4: with config.json unreadable the two registry functions differ:
    loadFlows catches the error, prints it and settles with the empty list;
    saveFlows, which loads the settings outside its try, rejects.  Neither
    touches a file. *)
Theorem registry_functions_unreadable_settings w e flows :
  config_outcome (configFile w) = Throw e ->
  loadFlows w
    = (Return [],
       logged (update_notice w ++ update_notice w
                 ++ [ LogError ("Error loading flows: " +:+ message e) ]) w)
  /\ saveFlows flows w = (Throw e, logged (update_notice w) w).
Proof.
  intros He. split.
  - unfold loadFlows.
    erewrite bind_Return by apply checkForUpdates_run.
    unfold try_catch at 1. unfold bind at 1.
    rewrite loadConfig_run. simpl. rewrite He.
    unfold console_error, modify, bind, ret, logged, emit; simpl.
    rewrite <- ?app_assoc. reflexivity.
  - unfold saveFlows.
    erewrite bind_Throw by (rewrite loadConfig_run, He; reflexivity).
    reflexivity.
Qed.

Lemma registry_functions_unreadable_settings_witness :
  loadFlows world_no_config
    = (Return [],
       logged (update_notice world_no_config ++ update_notice world_no_config
                 ++ [ LogError ("Error loading flows: "
                                  +:+ "Failed to load config.json: "
                                  +:+ message ENOENT) ]) world_no_config)
  /\ saveFlows [ deploy ] world_no_config
     = (Throw (mkError ("Failed to load config.json: " +:+ message ENOENT)),
        logged (update_notice world_no_config) world_no_config).
Proof.
  apply (registry_functions_unreadable_settings world_no_config
           (mkError ("Failed to load config.json: " +:+ message ENOENT))
           [ deploy ]).
  reflexivity.
Defined.

(** ** Questions *)

Lemma prompt_list_run question choices default line rest w :
  stdin w = line :: rest ->
  or_default default line ∈ choices ->
  prompt_list question choices default w
    = (Return (or_default default line),
       set_stdin rest (emit (Asked question) w)).
Proof.
  intros Hs Hin. unfold prompt_list.
  erewrite bind_Return by reflexivity.
  erewrite bind_Return by reflexivity.
  simpl. rewrite Hs. simpl.
  change (match line with
          | EmptyString => default
          | String _ _ => line
          end) with (or_default default line).
  erewrite bind_Return by reflexivity.
  by rewrite bool_decide_true.
Qed.

Lemma prompt_input_run question default line rest w :
  stdin w = line :: rest ->
  prompt_input question (Some default) no_validate w
    = (Return (or_default default line),
       set_stdin rest (emit (Asked question) w)).
Proof.
  intros Hs. unfold prompt_input.
  erewrite bind_Return by reflexivity.
  erewrite bind_Return by reflexivity.
  simpl. rewrite Hs. destruct line; reflexivity.
Qed.

(** ** flow init *)

Lemma initialize_run w config profile location rest :
  configFile w = Some (ConfigDoc config) ->
  initialized config = false ->
  configWritable w = true ->
  stdin w = profile :: location :: rest ->
  or_default "bash" profile ∈ PROFILES ->
  initialize w
    = (Return tt,
       mkWorld (host w) (cwd w)
         (Some (ConfigDoc
                  (located_settings (or_default "bash" profile)
                     (or_default (default_location config w) location)
                     (defaultFlowPath config))))
         (configWritable w) (fs w) rest
         (trace w
            ++ update_notice w ++ update_notice w
            ++ [ Asked "terminalProfile"; Asked "flowLocation" ]
            ++ update_notice w
            ++ [ Log "Flow manager initialized successfully!" ])).
Proof.
  intros Hconfig Hinit Hw Hs Hin.
  unfold initialize.
  erewrite bind_Return by apply checkForUpdates_run.
  erewrite bind_Return by (apply loadConfig_ok; exact Hconfig).
  rewrite Hinit. cbv beta iota.
  erewrite bind_Return by (apply (prompt_list_run _ _ _ profile
                                    (location :: rest)); assumption).
  erewrite bind_Return by reflexivity.
  erewrite bind_Return by (apply (prompt_input_run _ _ location rest);
                           reflexivity).
  erewrite bind_Return by (rewrite saveConfig_run; simpl; rewrite Hw;
                           reflexivity).
  unfold located_settings. same_world.
Qed.

(** X5: flow init on settings that are not initialized asks for the
    profile and the storage root (an empty line takes the default: bash, and
    flowDir.replace("$USER_HOME", os.homedir()), the home directory put in
    as [replace] does it), saves them with flowCommandDir = <root>/commands
    and initialized = true, keeps defaultFlowPath, starts no child and
    touches no file. *)
Theorem initialize_saves_the_answers w config profile location rest :
  configFile w = Some (ConfigDoc config) ->
  initialized config = false ->
  configWritable w = true ->
  stdin w = profile :: location :: rest ->
  or_default "bash" profile ∈ PROFILES ->
  let w' := world_after (initialize w) in
  outcome (initialize w) = Return tt
  /\ configFile w'
     = Some (ConfigDoc
               (mkConfig (or_default "bash" profile)
                  (or_default (default_location config w) location)
                  (path_join (or_default (default_location config w) location)
                             "commands")
                  (defaultFlowPath config) true))
  /\ fs w' = fs w /\ cwd w' = cwd w /\ stdin w' = rest
  /\ exists l,
       trace w' = trace w ++ l
       /\ questions_asked l = [ "terminalProfile"; "flowLocation" ]
       /\ commands_run l = [].
Proof.
  intros Hconfig Hinit Hw Hs Hin w'. unfold w'.
  rewrite (initialize_run w config profile location rest) by assumption.
  repeat split.
  eexists. split; [ reflexivity | ].
  rewrite !questions_asked_app, !commands_run_app.
  rewrite (proj1 (quiet_update_notice w)), (proj2 (quiet_update_notice w)).
  split; reflexivity.
Qed.

(** ... on a first run, the user taking both defaults. *)
Lemma initialize_saves_the_answers_witness :
  let w' := world_after (initialize world_first_run) in
  outcome (initialize world_first_run) = Return tt
  /\ configFile w'
     = Some (ConfigDoc
               (mkConfig "bash" "/home/u/.flow" "/home/u/.flow/commands" "."
                         true))
  /\ fs w' = fs world_first_run /\ cwd w' = cwd world_first_run
  /\ stdin w' = [ "later" ]
  /\ exists l,
       trace w' = trace world_first_run ++ l
       /\ questions_asked l = [ "terminalProfile"; "flowLocation" ]
       /\ commands_run l = [].
Proof.
  apply (initialize_saves_the_answers world_first_run
           (mkConfig "cmd" "$USER_HOME/.flow" "$USER_HOME/.flow/commands" "."
                     false)
           EmptyString EmptyString [ "later" ]).
  - reflexivity.
  - reflexivity.
  - reflexivity.
  - reflexivity.
  - vm_compute. set_solver.
Defined.

(** X6: flow init on settings that are initialized says so and leaves the
    world as it was: no question, no child, no write. *)
Theorem initialize_twice_changes_nothing w config :
  configFile w = Some (ConfigDoc config) ->
  initialized config = true ->
  initialize w
    = (Return tt,
       logged (update_notice w ++ update_notice w
                 ++ [ Log "Flow manager is already initialized." ]) w).
Proof.
  intros Hconfig Hinit. unfold initialize.
  erewrite bind_Return by apply checkForUpdates_run.
  erewrite bind_Return by (apply loadConfig_ok; exact Hconfig).
  rewrite Hinit. same_world.
Qed.

Lemma initialize_twice_changes_nothing_witness :
  initialize world_deploy
    = (Return tt,
       logged (update_notice world_deploy ++ update_notice world_deploy
                 ++ [ Log "Flow manager is already initialized." ])
              world_deploy).
Proof.
  apply (initialize_twice_changes_nothing world_deploy (settings "bash" true)).
  - reflexivity.
  - reflexivity.
Defined.

(** ** flow default *)

Lemma resetConfig_run w config :
  configFile w = Some (ConfigDoc config) ->
  configWritable w = true ->
  resetConfig w
    = (Return tt,
       logged (update_notice w ++ update_notice w)
         (set_configFile
            (Some (ConfigDoc (default_settings (homedir (host w))))) w)).
Proof.
  intros Hconfig Hw. unfold resetConfig.
  erewrite bind_Return by (apply loadConfig_ok; exact Hconfig).
  erewrite bind_Return by reflexivity.
  rewrite saveConfig_run.
  change (configWritable _) with (configWritable w). rewrite Hw.
  unfold default_settings. same_world.
Qed.

(** X7: resetConfig replaces readable settings, whatever they were, by the
    defaults (bash, <home>/.flow, <home>/.flow/commands, ".", initialized =
    false) and removes no file: the flows stay on disk, but list and run
    answer with the not-initialized message until flow init is run again. *)
Theorem resetConfig_locks_the_flows w config flowName :
  configFile w = Some (ConfigDoc config) ->
  configWritable w = true ->
  let w' := world_after (resetConfig w) in
  outcome (resetConfig w) = Return tt
  /\ configFile w'
     = Some (ConfigDoc
               (mkConfig "bash" (path_join (homedir (host w)) ".flow")
                  (path_join (path_join (homedir (host w)) ".flow")
                             "commands") "." false))
  /\ fs w' = fs w
  /\ (exists l, listFlows w' = (Return tt, logged l w')
                /\ Log NOT_INITIALIZED ∈ l /\ quiet l)
  /\ (exists l, runFlow flowName w' = (Return tt, logged l w')
                /\ Log NOT_INITIALIZED ∈ l /\ quiet l).
Proof.
  intros Hconfig Hw w'. unfold w'.
  rewrite (resetConfig_run w config Hconfig Hw).
  destruct (commands_stop_at_gate true flowName) as (_ & Hlist & Hrun & _).
  split; [ reflexivity | ]. split; [ reflexivity | ].
  split; [ reflexivity | ]. split.
  - eapply Hlist; reflexivity.
  - eapply Hrun; reflexivity.
Qed.

Lemma resetConfig_locks_the_flows_witness :
  let w' := world_after (resetConfig world_deploy) in
  outcome (resetConfig world_deploy) = Return tt
  /\ configFile w'
     = Some (ConfigDoc
               (mkConfig "bash"
                  (path_join (homedir (host world_deploy)) ".flow")
                  (path_join (path_join (homedir (host world_deploy)) ".flow")
                             "commands") "." false))
  /\ fs w' = fs world_deploy
  /\ (exists l, listFlows w' = (Return tt, logged l w')
                /\ Log NOT_INITIALIZED ∈ l /\ quiet l)
  /\ (exists l, runFlow "deploy" w' = (Return tt, logged l w')
                /\ Log NOT_INITIALIZED ∈ l /\ quiet l).
Proof.
  apply (resetConfig_locks_the_flows world_deploy (settings "bash" true)
           "deploy").
  - reflexivity.
  - reflexivity.
Defined.

(** ** The registry file *)

Lemma saveFlows_run w config flows :
  configFile w = Some (ConfigDoc config) ->
  is_dir (fs w) (flowsFile config w) = false ->
  is_dir (fs w) (parent (flowsFile config w)) = true ->
  saveFlows flows w
    = (Return tt,
       logged (update_notice w)
         (set_fs (<[ flowsFile config w := File (FlowsDoc flows) ]> (fs w))
                 w)).
Proof.
  intros Hconfig Hfile Hparent. unfold saveFlows.
  erewrite bind_Return by (apply loadConfig_ok; exact Hconfig).
  unfold try_catch, fs_writeFile. rewrite locate_path_join.
  unfold flowsFile, here in *. simpl.
  rewrite Hfile, Hparent. reflexivity.
Qed.

Lemma registry_after_write w config flows f :
  configFile w = Some (ConfigDoc config) ->
  is_dir f (flowsFile config w) = false ->
  registry (set_fs (<[ flowsFile config w := File (FlowsDoc flows) ]> f) w)
    = flows.
Proof.
  intros Hconfig Hfile.
  unfold registry, registry_node, flowsFile, here, node_at in *. simpl.
  rewrite Hconfig.
  destruct (resolve (cwd w) (path_join (flowDir config) "flows.json"))
    eqn:Hk; [ done | ].
  by rewrite lookup_insert_eq.
Qed.

(** X8: when the registry file can be written (flows.json is not a
    directory and the storage root exists), what saveFlows writes is what
    loadFlows reads next, whatever the file held before; the order of the
    records and records of the same name are kept. *)
Theorem saveFlows_then_loadFlows w config flows :
  configFile w = Some (ConfigDoc config) ->
  is_dir (fs w) (flowsFile config w) = false ->
  is_dir (fs w) (parent (flowsFile config w)) = true ->
  outcome ((_ <- saveFlows flows ;; loadFlows) w) = Return flows.
Proof.
  intros Hconfig Hfile Hparent.
  erewrite bind_Return by (apply (saveFlows_run w config); assumption).
  match goal with
  | |- outcome (loadFlows ?w2) = _ =>
      destruct (loadFlows_run w2) as (l & -> & _)
  end.
  unfold outcome; simpl. f_equal.
  change (registry (logged ?l (set_fs ?f w))) with (registry (set_fs f w)).
  by apply registry_after_write.
Qed.

(** ... over a registry file that is not JSON. *)
Lemma saveFlows_then_loadFlows_witness :
  outcome ((_ <- saveFlows [ deploy; deploy ] ;; loadFlows) world_malformed)
    = Return [ deploy; deploy ].
Proof.
  apply (saveFlows_then_loadFlows world_malformed (settings "bash" true)).
  - reflexivity.
  - vm_compute. reflexivity.
  - vm_compute. reflexivity.
Defined.

(** ** flow list *)

Lemma forEach_log_names flows w :
  forEach (fun flow => console_log (name flow)) flows w
    = (Return tt, logged (map (fun f => Log (name f)) flows) w).
Proof.
  revert w. induction flows as [ | f r IH ]; intros w; simpl.
  - unfold ret. by rewrite logged_nil.
  - erewrite bind_Return by reflexivity.
    rewrite IH. rewrite emit_logged, logged_logged. reflexivity.
Qed.

(** X9: on initialized settings flow list settles, changes nothing, and the
    last thing it prints is "No flows found." for an empty registry and
    otherwise "List of flows:" followed by the name of every record, one
    line each, in the order of the registry file, names that occur twice
    printed twice. *)
Theorem listFlows_prints_registry_in_order w config :
  configFile w = Some (ConfigDoc config) ->
  initialized config = true ->
  exists l,
    listFlows w = (Return tt, logged (l ++ listing (registry w)) w)
    /\ quiet l.
Proof.
  intros Hconfig Hinit. unfold listFlows.
  erewrite bind_Return by apply checkForUpdates_run.
  erewrite bind_Return by (apply loadConfig_ok; exact Hconfig).
  rewrite Hinit; simpl.
  destruct (loadFlows_run (logged (update_notice w) (logged (update_notice w) w)))
    as (l & Hl & Hq).
  erewrite bind_Return by exact Hl.
  change (registry (logged ?a (logged ?b w))) with (registry w).
  exists (update_notice w ++ update_notice w ++ l). split.
  - destruct (registry w) as [ | f r ] eqn:Hr.
    + cbn [ length Nat.eqb listing ]. same_world.
    + cbn [ length Nat.eqb listing ].
      erewrite bind_Return by reflexivity.
      rewrite forEach_log_names. same_world.
  - repeat apply quiet_app; auto using quiet_update_notice.
Qed.

Lemma listFlows_prints_registry_in_order_witness :
  exists l,
    listFlows world_three
      = (Return tt, logged (l ++ listing (registry world_three)) world_three)
    /\ quiet l.
Proof.
  apply (listFlows_prints_registry_in_order world_three (settings "zsh" true)).
  - reflexivity.
  - reflexivity.
Defined.

(** ** Names that are not in the registry *)

Lemma findIndex_None pred (l : list Flow) :
  List.find pred l = None -> findIndex pred l = None.
Proof.
  induction l as [ | x r IH ]; simpl; [ done | ].
  destruct (pred x); [ done | ]. intros H. by rewrite (IH H).
Qed.

Ltac run_not_found w Hconfig Hinit Hnone :=
  erewrite bind_Return by apply checkForUpdates_run;
  erewrite bind_Return by (apply loadConfig_ok; exact Hconfig);
  rewrite Hinit; cbv beta iota delta [ negb ];
  let l := fresh "l" in
  let Hl := fresh "Hl" in
  let Hq := fresh "Hq" in
  destruct (loadFlows_run (logged (update_notice w)
                             (logged (update_notice w) w)))
    as (l & Hl & Hq);
  erewrite bind_Return by exact Hl;
  change (registry (logged (update_notice w) (logged (update_notice w) w)))
    with (registry w);
  match goal with
  | |- context [ fun f : Flow => (name f =? ?n)%string ] =>
      change (fun f : Flow => (name f =? n)%string) with (named n)
  end;
  rewrite ?(findIndex_None _ _ Hnone), ?Hnone;
  unfold console_log, modify; rewrite emit_logged, !logged_logged;
  eexists; split; [ reflexivity | ]; split;
  [ set_solver
  | repeat apply quiet_app; auto using quiet_update_notice; done ].

(** X10: run, delete and edit of a name that no record carries print "Flow
    not found", settle normally and leave everything as it was: no file is
    removed, the registry is not rewritten, no child is started, the working
    directory is not changed. *)
Theorem unknown_flow_is_not_found w config flowName :
  configFile w = Some (ConfigDoc config) ->
  initialized config = true ->
  List.find (named flowName) (registry w) = None ->
  (exists l, runFlow flowName w = (Return tt, logged l w)
             /\ Log "Flow not found" ∈ l /\ quiet l)
  /\ (exists l, deleteFlow flowName w = (Return tt, logged l w)
                /\ Log "Flow not found" ∈ l /\ quiet l)
  /\ (exists l, openFlowForEditing flowName w = (Return tt, logged l w)
                /\ Log "Flow not found" ∈ l /\ quiet l).
Proof.
  intros Hconfig Hinit Hnone. repeat split.
  - unfold runFlow. run_not_found w Hconfig Hinit Hnone.
  - unfold deleteFlow. run_not_found w Hconfig Hinit Hnone.
  - unfold openFlowForEditing. run_not_found w Hconfig Hinit Hnone.
Qed.

(** ... for a name in another case: the comparison is exact. *)
Lemma unknown_flow_is_not_found_witness :
  (exists l, runFlow "Deploy" world_deploy = (Return tt, logged l world_deploy)
             /\ Log "Flow not found" ∈ l /\ quiet l)
  /\ (exists l, deleteFlow "Deploy" world_deploy
                = (Return tt, logged l world_deploy)
                /\ Log "Flow not found" ∈ l /\ quiet l)
  /\ (exists l, openFlowForEditing "Deploy" world_deploy
                = (Return tt, logged l world_deploy)
                /\ Log "Flow not found" ∈ l /\ quiet l).
Proof.
  apply (unknown_flow_is_not_found world_deploy (settings "bash" true)
           "Deploy").
  - reflexivity.
  - reflexivity.
  - vm_compute. reflexivity.
Defined.

(** ** flow delete *)


Lemma under_parent (k p : list string) :
  k `prefix_of` parent p -> k `prefix_of` p.
Proof.
  intros Hk. unfold parent in Hk.
  destruct (decide (p = [])) as [ -> | Hp ]; [ exact Hk | ].
  rewrite (app_removelast_last EmptyString Hp).
  by apply prefix_app_r.
Qed.

Lemma deleteFlow_run w config flowName flows i flow :
  configFile w = Some (ConfigDoc config) ->
  initialized config = true ->
  registry_node config w = Some (File (FlowsDoc flows)) ->
  findIndex (named flowName) flows = Some i ->
  flows !! i = Some flow ->
  leads_somewhere (script flow) w = true ->
  ~ here (script flow) w `prefix_of` flowsFile config w ->
  is_dir (fs w) (parent (flowsFile config w)) = true ->
  exists l,
    deleteFlow flowName w
      = (Return tt,
         logged (l ++ [ Log "Flow deleted successfully!" ])
           (set_fs (<[ flowsFile config w := File (FlowsDoc (splice1 i flows)) ]>
                      (remove_tree (here (script flow) w) (fs w))) w))
    /\ quiet l.
Proof.
  intros Hconfig Hinit Hreg Hidx Hflow Hexists Hout Hparent.
  assert (Hregistry : registry w = flows).
  { unfold registry. by rewrite Hconfig, Hreg. }
  unfold deleteFlow.
  erewrite bind_Return by apply checkForUpdates_run.
  erewrite bind_Return by (apply loadConfig_ok; exact Hconfig).
  rewrite Hinit. cbv beta iota delta [ negb ].
  destruct (loadFlows_run (logged (update_notice w)
                             (logged (update_notice w) w)))
    as (l & Hl & Hq).
  erewrite bind_Return by exact Hl.
  change (registry (logged (update_notice w) (logged (update_notice w) w)))
    with (registry w).
  rewrite Hregistry.
  change (fun f : Flow => (name f =? flowName)%string) with (named flowName).
  rewrite Hidx, Hflow.
  rewrite !logged_logged.
  set (w1 := logged (update_notice w ++ update_notice w ++ l) w).
  set (f1 := remove_tree (here (script flow) w) (fs w)).
  assert (Hrm : fs_rm_recursive (script flow) w1 = (Return tt, set_fs f1 w1)).
  { destruct (leads_somewhere_here _ _ Hexists) as (Hloc & Hthere).
    unfold fs_rm_recursive.
    change (locate (script flow) w1) with (locate (script flow) w).
    rewrite Hloc. change (fs w1) with (fs w). by rewrite Hthere. }
  assert (Hfile : is_dir f1 (flowsFile config w) = false).
  { unfold f1. rewrite is_dir_remove_tree by exact Hout.
    unfold registry_node in Hreg. unfold is_dir. by rewrite Hreg. }
  assert (Hdir : is_dir f1 (parent (flowsFile config w)) = true).
  { unfold f1. rewrite is_dir_remove_tree; [ exact Hparent | ].
    intros Hp. apply Hout. by apply under_parent. }
  unfold try_catch.
  erewrite bind_Return by exact Hrm.
  erewrite bind_Return
    by (apply (saveFlows_run (set_fs f1 w1) config); assumption).
  exists (update_notice w ++ update_notice w ++ l ++ update_notice w).
  split; [ unfold w1; same_world | ].
  repeat apply quiet_app; auto using quiet_update_notice.
Qed.



(** ** flow run *)

(** X12: runFlow of a flow whose directory can be entered (its path can be
    followed and leads to a directory) settles normally however
    the child ends, and reports in this order: "Running flow: <name>", the
    child's standard output on console.log and, when it is not empty, its
    standard error on console.error (or, for a child that fails, "Error
    running flow: <message>" on console.error), and last "Finished."; the
    files are as the child left them. *)
Theorem runFlow_reports_the_child w flowName config flow r f :
  configFile w = Some (ConfigDoc config) ->
  initialized config = true ->
  List.find (named flowName) (registry w) = Some flow ->
  canonical_dir (cwd w) ->
  leads_to_directory (path flow) w = true ->
  child (host w) ("sh " +:+ script flow) (flow_directory flow w) (fs w)
    = (r, f) ->
  is_dir f (path_segments (cwd w)) = true ->
  exists l,
    runFlow flowName w
      = (Return tt,
         logged (l ++ [ Log ("Running flow: " +:+ name flow);
                        Spawned ("sh " +:+ script flow)
                                (flow_directory flow w) ]
                   ++ report "Error running flow: " r
                   ++ [ Log "Finished." ])
                (set_fs f w))
    /\ quiet l.
Proof.
  intros Hconfig Hinit Hfound Hcanon Hdir Hchild Hstill.
  destruct (runFlow_found w flowName config flow Hconfig Hinit Hfound)
    as (l & Hrun & Hq).
  exists l. split; [ | exact Hq ].
  rewrite Hrun.
  rewrite (scoped_run "sh " _ _ flow (logged l w) r f Hcanon Hdir Hchild
             Hstill).
  same_world.
Qed.

(** ... for a child that writes on both streams. *)
Lemma runFlow_reports_the_child_witness :
  exists l,
    runFlow "deploy" world_chatty
      = (Return tt,
         logged (l ++ [ Log ("Running flow: " +:+ name deploy);
                        Spawned ("sh " +:+ script deploy)
                                (flow_directory deploy world_chatty) ]
                   ++ report "Error running flow: " (Exited "done" "warning")
                   ++ [ Log "Finished." ])
                (set_fs (fs world_chatty) world_chatty))
    /\ quiet l.
Proof.
  apply (runFlow_reports_the_child world_chatty "deploy"
           (settings "bash" true) deploy (Exited "done" "warning")
           (fs world_chatty)).
  - reflexivity.
  - reflexivity.
  - vm_compute. reflexivity.
  - split; vm_compute; reflexivity.
  - vm_compute. reflexivity.
  - reflexivity.
  - vm_compute. reflexivity.
Defined.

Lemma benign_update_notice w : Forall benign (update_notice w).
Proof.
  unfold update_notice. case_bool_decide; repeat constructor.
Qed.

Lemma benign_quiet l : Forall benign l -> quiet l.
Proof.
  induction 1 as [ | e l He _ IH ]; [ done | ].
  unfold quiet in *. destruct IH as [ Hc Hq ].
  destruct He as [ -> | [ s -> ] ]; simpl; (split; assumption).
Qed.

Lemma benign_not_finished l : Forall benign l -> Log "Finished." ∉ l.
Proof.
  intros Hl Hin. rewrite Forall_forall in Hl.
  destruct (Hl _ Hin) as [ Heq | [ s Heq ] ]; [ | done ].
  vm_compute in Heq. discriminate Heq.
Qed.

Ltac finish_benign :=
  eexists; split;
  [ unfold logged, emit; simpl; rewrite <- ?app_assoc; reflexivity
  | repeat apply Forall_app_2; auto ].

Lemma loadFlows_benign w :
  exists l, loadFlows w = (Return (registry w), logged l w) /\ Forall benign l.
Proof.
  pose proof (benign_update_notice w) as Hn.
  assert (He : forall s, Forall benign [ LogError s ]).
  { intros s. constructor; [ right; by exists s | constructor ]. }
  assert (Hnn : Forall benign (update_notice w ++ update_notice w))
    by (apply Forall_app_2; assumption).
  unfold loadFlows, registry, registry_node, flowsFile.
  erewrite bind_Return by apply checkForUpdates_run.
  unfold try_catch at 1. unfold bind at 1.
  rewrite loadConfig_run. simpl.
  destruct (configFile w) as [ [ t | c ] | ] eqn:Hc; simpl.
  - unfold console_error, modify, bind, ret. finish_benign.
  - unfold bind, try_catch, fs_access, fs_readFile; simpl.
    rewrite !locate_path_join.
    unfold exists_path, is_dir, is_file, here; simpl.
    destruct (node_at (fs w)
                (resolve (cwd w) (path_join (flowDir c) "flows.json")))
      as [ [ | [ t | l ] ] | ] eqn:Hf; simpl;
      rewrite ?locate_path_join; unfold here; simpl; rewrite ?Hf;
      unfold console_error, modify, bind, ret, throw, JSON_parse_flows;
      simpl; rewrite ?Hf; simpl; finish_benign.
  - unfold console_error, modify, bind, ret. finish_benign.
Qed.

Section FlowFoundAgain.

Variables (w : World) (flowName : string) (config : Config) (flow : Flow).
Hypothesis Hconfig : configFile w = Some (ConfigDoc config).
Hypothesis Hinit : initialized config = true.
Hypothesis Hfound : List.find (named flowName) (registry w) = Some flow.

Lemma runFlow_found_benign :
  exists l,
    runFlow flowName w
      = scoped "sh " "Running flow: " "Error running flow: " flow (logged l w)
    /\ Forall benign l.
Proof using Hconfig Hinit Hfound.
  unfold runFlow.
  erewrite bind_Return by apply checkForUpdates_run.
  erewrite bind_Return by (apply loadConfig_ok; exact Hconfig).
  rewrite Hinit. cbv beta iota delta [ negb ].
  destruct (loadFlows_benign (logged (update_notice w)
                                (logged (update_notice w) w)))
    as (l & Hl & Hq).
  erewrite bind_Return by exact Hl.
  change (registry (logged ?a (logged ?b w))) with (registry w).
  change (fun f : Flow => (name f =? flowName)%string) with (named flowName).
  rewrite Hfound. rewrite !logged_logged.
  eexists; split; [ reflexivity | ].
  repeat apply Forall_app_2; auto using benign_update_notice.
Qed.

Lemma openFlowForEditing_found_benign :
  exists l,
    openFlowForEditing flowName w
      = scoped "code " "Opening flow for editing: "
               "Error opening flow for editing: " flow (logged l w)
    /\ Forall benign l.
Proof using Hconfig Hinit Hfound.
  unfold openFlowForEditing.
  erewrite bind_Return by apply checkForUpdates_run.
  erewrite bind_Return by (apply loadConfig_ok; exact Hconfig).
  rewrite Hinit. cbv beta iota delta [ negb ].
  destruct (loadFlows_benign (logged (update_notice w)
                                (logged (update_notice w) w)))
    as (l & Hl & Hq).
  erewrite bind_Return by exact Hl.
  change (registry (logged ?a (logged ?b w))) with (registry w).
  change (fun f : Flow => (name f =? flowName)%string) with (named flowName).
  rewrite Hfound. rewrite !logged_logged.
  eexists; split; [ reflexivity | ].
  repeat apply Forall_app_2; auto using benign_update_notice.
Qed.

End FlowFoundAgain.

(** X13: when the directory recorded for the flow is not there any more,
    runFlow and openFlowForEditing reject with the error of process.chdir;
    no child is started, nothing is changed, and neither the catch nor the
    finally of the function runs ("Finished." is not printed). *)
Theorem flow_directory_missing w flowName config flow :
  configFile w = Some (ConfigDoc config) ->
  initialized config = true ->
  List.find (named flowName) (registry w) = Some flow ->
  is_dir (fs w) (here (path flow) w) = false ->
  let failure := mkError "ENOENT: no such file or directory, chdir" in
  (exists l, runFlow flowName w = (Throw failure, logged l w)
             /\ quiet l /\ Log "Finished." ∉ l)
  /\ (exists l, openFlowForEditing flowName w = (Throw failure, logged l w)
                /\ quiet l /\ Log "Finished." ∉ l).
Proof.
  intros Hconfig Hinit Hfound Hdir failure.
  destruct (runFlow_found_benign w flowName config flow Hconfig Hinit Hfound)
    as (lr & Hrun & Hbr).
  destruct (openFlowForEditing_found_benign w flowName config flow Hconfig
              Hinit Hfound) as (le & Hedit & Hbe).
  split.
  - exists lr. rewrite Hrun.
    rewrite (scoped_without_directory _ _ _ flow (logged lr w)
               (not_a_directory _ _ Hdir)).
    auto using benign_quiet, benign_not_finished.
  - exists le. rewrite Hedit.
    rewrite (scoped_without_directory _ _ _ flow (logged le w)
               (not_a_directory _ _ Hdir)).
    auto using benign_quiet, benign_not_finished.
Qed.

Lemma flow_directory_missing_witness :
  (exists l,
     runFlow "deploy" world_no_directory
       = (Throw (mkError "ENOENT: no such file or directory, chdir"),
          logged l world_no_directory)
     /\ quiet l /\ Log "Finished." ∉ l)
  /\ (exists l,
        openFlowForEditing "deploy" world_no_directory
          = (Throw (mkError "ENOENT: no such file or directory, chdir"),
             logged l world_no_directory)
        /\ quiet l /\ Log "Finished." ∉ l).
Proof.
  apply (flow_directory_missing world_no_directory "deploy"
           (settings "bash" true) deploy).
  - reflexivity.
  - reflexivity.
  - vm_compute. reflexivity.
  - vm_compute. reflexivity.
Defined.

(** ** flow create, after the questions *)

(** X14: with a terminalProfile in the settings that is none of bash, zsh,
    powershell and cmd, createFlow (the answers given) prints "Invalid
    terminal profile selected." and creates nothing: no folder, no script, no
    record. *)
Theorem createFlow_answered_unknown_profile w config flowName flowPath
    commands :
  terminalProfile config ∉ PROFILES ->
  createFlow_answered config flowName flowPath commands w
    = (Return tt, logged [ Log "Invalid terminal profile selected." ] w).
Proof.
  intros Hp. unfold createFlow_answered.
  rewrite generateScript_unknown; [ reflexivity | | | | ];
    intros Heq; apply Hp; rewrite Heq; unfold PROFILES; set_solver.
Qed.

Lemma createFlow_answered_unknown_profile_witness :
  createFlow_answered (settings "fish" true) "build" "/w" "echo a"
                      (world_fish [])
    = (Return tt,
       logged [ Log "Invalid terminal profile selected." ] (world_fish [])).
Proof.
  apply (createFlow_answered_unknown_profile (world_fish [])
           (settings "fish" true) "build" "/w" "echo a").
  unfold PROFILES. intros Hin.
  repeat (apply elem_of_cons in Hin; destruct Hin as [ Hin | Hin ];
          [ discriminate Hin | ]).
  by apply elem_of_nil in Hin.
Defined.

Lemma mkdir_p_files (f f' : FS) (pre rest k : list string) d :
  mkdir_p f pre rest = Some f' ->
  f' !! k = Some (File d) -> f !! k = Some (File d).
Proof.
  revert f pre. induction rest as [ | s r IH ]; intros f pre; simpl.
  - by intros [= ->].
  - destruct (is_file f (pre ++ [ s ])) eqn:Hfile; [ done | ].
    intros Hmk Hk. specialize (IH _ _ Hmk Hk).
    destruct (decide (pre ++ [ s ] = k)) as [ <- | Hne ].
    + by rewrite lookup_insert_eq in IH.
    + by rewrite lookup_insert_ne in IH.
Qed.

Lemma registry_after_mkdir w f1 k :
  mkdir_p (fs w) [] k = Some f1 ->
  registry (set_fs f1 w) = registry w.
Proof.
  intros Hmk. unfold registry, registry_node, flowsFile, here, node_at.
  simpl. destruct (configFile w) as [ [ t | c ] | ]; try reflexivity.
  destruct (resolve (cwd w) (path_join (flowDir c) "flows.json"))
    as [ | s r ] eqn:Hk; [ reflexivity | ].
  destruct (fs w !! (s :: r)) as [ [ | d ] | ] eqn:Hold.
  - by rewrite (mkdir_p_keeps _ _ _ _ _ _ Hmk Hold).
  - by rewrite (mkdir_p_keeps _ _ _ _ _ _ Hmk Hold).
  - destruct (f1 !! (s :: r)) as [ [ | d ] | ] eqn:Hnew; try reflexivity.
    by rewrite (mkdir_p_files _ _ _ _ _ _ Hmk Hnew) in Hold.
Qed.

(** X15: when the folder of the flow cannot be made or the script cannot be
    written, createFlow (the answers given) prints "Error creating flow:
    <message>" on the error stream and settles; the registry holds what it
    held before, since the record is only pushed after the script is
    written. *)
Theorem createFlow_answered_failure_keeps_registry w config flowName flowPath
    commands content ext e :
  let commandFolder := path_join (flowCommandDir config) flowName in
  let scriptFile := path_join commandFolder ("script" +:+ ext) in
  generateScript (terminalProfile config) commands = Some (content, ext) ->
  outcome ((_ <- fs_mkdir_recursive commandFolder ;;
            fs_writeFile scriptFile (Plain content)) w) = Throw e ->
  let w' := world_after (createFlow_answered config flowName flowPath
                           commands w) in
  outcome (createFlow_answered config flowName flowPath commands w)
    = Return tt
  /\ trace w' = trace w ++ [ LogError ("Error creating flow: " +:+ message e) ]
  /\ registry w' = registry w
  /\ configFile w' = configFile w.
Proof.
  intros commandFolder scriptFile Hscript Hfail w'. unfold w'. clear w'.
  unfold createFlow_answered. rewrite Hscript.
  fold commandFolder. fold scriptFile.
  unfold outcome in Hfail. unfold bind at 1 in Hfail.
  destruct (fs_mkdir_recursive commandFolder w) as [ [ u | e' | ] w1 ] eqn:Hm;
    simpl in Hfail; try discriminate.
  - assert (Hw1 : exists f1, mkdir_p (fs w) [] (here commandFolder w) = Some f1
                             /\ w1 = set_fs f1 w).
    { unfold fs_mkdir_recursive, commandFolder in Hm.
      rewrite locate_path_join in Hm. fold commandFolder in Hm.
      destruct (mkdir_p (fs w) [] (here commandFolder w)) as [ f1 | ];
        [ exists f1; by inversion Hm | ].
      destruct (is_file (fs w) (here commandFolder w)); discriminate Hm. }
    destruct Hw1 as (f1 & Hmk & ->).
    destruct (fs_writeFile scriptFile (Plain content) (set_fs f1 w))
      as [ [ u' | e' | ] w2 ] eqn:Hwrite; simpl in Hfail; try discriminate.
    injection Hfail as ->.
    assert (Hw2 : w2 = set_fs f1 w).
    { unfold fs_writeFile, scriptFile in Hwrite.
      rewrite locate_path_join in Hwrite. cbv beta iota in Hwrite.
      repeat match type of Hwrite with
             | (if ?b then _ else _) = _ => destruct b
             end; by inversion Hwrite. }
    subst w2.
    erewrite try_catch_Throw
      by (erewrite bind_Return by exact Hm;
          erewrite bind_Throw by exact Hwrite; reflexivity).
    unfold world_after, outcome, console_error, modify; simpl.
    repeat split. by apply (registry_after_mkdir w f1 (here commandFolder w)).
  - injection Hfail as ->.
    assert (Hw1 : w1 = w).
    { unfold fs_mkdir_recursive, commandFolder in Hm.
      rewrite locate_path_join in Hm. fold commandFolder in Hm.
      destruct (mkdir_p (fs w) [] (here commandFolder w)); [ discriminate | ].
      destruct (is_file (fs w) (here commandFolder w)); by inversion Hm. }
    subst w1.
    erewrite try_catch_Throw by (erewrite bind_Throw by exact Hm; reflexivity).
    by repeat split.
Qed.

(** ... where the folder of the flows is a file. *)
Lemma createFlow_answered_failure_keeps_registry_witness :
  let w' := world_after (createFlow_answered (settings "bash" true) "build"
                           "/w" "echo a,echo b" world_blocked) in
  outcome (createFlow_answered (settings "bash" true) "build" "/w"
                               "echo a,echo b" world_blocked) = Return tt
  /\ trace w' = trace world_blocked
                  ++ [ LogError ("Error creating flow: "
                                   +:+ message ENOTDIR) ]
  /\ registry w' = registry world_blocked
  /\ configFile w' = configFile world_blocked.
Proof.
  apply (createFlow_answered_failure_keeps_registry world_blocked
           (settings "bash" true) "build" "/w" "echo a,echo b"
           deploy_script ".sh" ENOTDIR).
  - reflexivity.
  - vm_compute. reflexivity.
Defined.

Lemma registry_lookup w config f flows :
  configFile w = Some (ConfigDoc config) ->
  flowsFile config w <> [] ->
  f !! flowsFile config w = Some (File (FlowsDoc flows)) ->
  registry (set_fs f w) = flows.
Proof.
  intros Hconfig Hk Hf.
  unfold registry, registry_node, flowsFile, here, node_at in *. simpl.
  rewrite Hconfig.
  destruct (resolve (cwd w) (path_join (flowDir config) "flows.json"))
    eqn:Hkey; [ done | ].
  by rewrite Hf.
Qed.

Lemma createFlow_answered_run w config flowName flowPath commands
    content ext flows f1 :
  let commandFolder := path_join (flowCommandDir config) flowName in
  let scriptFile := path_join commandFolder ("script" +:+ ext) in
  configFile w = Some (ConfigDoc config) ->
  generateScript (terminalProfile config) commands = Some (content, ext) ->
  registry_node config w = Some (File (FlowsDoc flows)) ->
  is_dir (fs w) (parent (flowsFile config w)) = true ->
  mkdir_p (fs w) [] (here commandFolder w) = Some f1 ->
  is_dir f1 (here scriptFile w) = false ->
  is_dir f1 (parent (here scriptFile w)) = true ->
  here scriptFile w <> flowsFile config w ->
  exists l,
    createFlow_answered config flowName flowPath commands w
      = (Return tt,
         logged (l ++ [ Log ("Flow created successfully! File location: "
                               +:+ scriptFile) ])
           (set_fs
              (<[ flowsFile config w
                    := File (FlowsDoc
                               (flows ++ [ mkFlow flowName flowPath
                                                  scriptFile ])) ]>
                 (<[ here scriptFile w := File (Plain content) ]> f1)) w))
    /\ quiet l.
Proof.
  intros commandFolder scriptFile Hconfig Hscript Hreg Hparent Hmk Hnodir
    Hdir Hne.
  destruct (node_at_lookup _ _ _ Hreg) as (Hk & Hfile).
  set (f2 := <[ here scriptFile w := File (Plain content) ]> f1).
  assert (Hfile2 : f2 !! flowsFile config w = Some (File (FlowsDoc flows))).
  { unfold f2. rewrite lookup_insert_ne by exact Hne.
    by apply (mkdir_p_keeps _ _ _ _ _ _ Hmk). }
  assert (Hnot : is_dir f2 (flowsFile config w) = false).
  { unfold is_dir, node_at.
    destruct (flowsFile config w) eqn:Hkey; [ done | ]. by rewrite Hfile2. }
  assert (Hparent2 : is_dir f2 (parent (flowsFile config w)) = true).
  { unfold f2. rewrite is_dir_insert_file by exact Hnodir.
    eapply is_dir_lookup; [ | exact Hparent ].
    intros n Hn. by apply (mkdir_p_keeps _ _ _ _ _ _ Hmk). }
  assert (Hm : fs_mkdir_recursive commandFolder w
               = (Return tt, set_fs f1 w)).
  { unfold fs_mkdir_recursive, commandFolder.
    rewrite locate_path_join. fold commandFolder. by rewrite Hmk. }
  assert (Hwrite : fs_writeFile scriptFile (Plain content) (set_fs f1 w)
                   = (Return tt, set_fs f2 w)).
  { unfold fs_writeFile, scriptFile.
    rewrite locate_path_join. fold commandFolder. fold scriptFile.
    change (here scriptFile (set_fs f1 w)) with (here scriptFile w).
    change (fs (set_fs f1 w)) with f1.
    by rewrite Hnodir, Hdir. }
  destruct (loadFlows_run (set_fs f2 w)) as (l & Hl & Hq).
  assert (Hreg2 : registry (set_fs f2 w) = flows)
    by (by apply (registry_lookup w config)).
  rewrite Hreg2 in Hl.
  unfold createFlow_answered. rewrite Hscript.
  fold commandFolder. fold scriptFile.
  unfold try_catch.
  erewrite bind_Return by exact Hm.
  erewrite bind_Return by exact Hwrite.
  erewrite bind_Return by exact Hl.
  erewrite bind_Return
    by (apply (saveFlows_run (logged l (set_fs f2 w)) config); assumption).
  exists (l ++ update_notice w). split; [ unfold f2; same_world | ].
  apply quiet_app; auto using quiet_update_notice.
Qed.

(** X16: when the folder and the script can be written and the registry
    file is in place, createFlow (the answers given) writes the generated
    script to <flowCommandDir>/<name>/script<ext>, replacing what was there,
    appends the record { name, path, script } after the records the registry
    held and reports success; the directory of the script is there. *)
Theorem createFlow_answered_registers w config flowName flowPath commands
    content ext flows f1 :
  let commandFolder := path_join (flowCommandDir config) flowName in
  let scriptFile := path_join commandFolder ("script" +:+ ext) in
  configFile w = Some (ConfigDoc config) ->
  generateScript (terminalProfile config) commands = Some (content, ext) ->
  registry_node config w = Some (File (FlowsDoc flows)) ->
  is_dir (fs w) (parent (flowsFile config w)) = true ->
  mkdir_p (fs w) [] (here commandFolder w) = Some f1 ->
  is_dir f1 (here scriptFile w) = false ->
  is_dir f1 (parent (here scriptFile w)) = true ->
  here scriptFile w <> flowsFile config w ->
  let w' := world_after (createFlow_answered config flowName flowPath
                           commands w) in
  outcome (createFlow_answered config flowName flowPath commands w)
    = Return tt
  /\ registry w' = flows ++ [ mkFlow flowName flowPath scriptFile ]
  /\ node_at (fs w') (here scriptFile w) = Some (File (Plain content))
  /\ is_dir (fs w') (parent (here scriptFile w)) = true
  /\ exists l,
       trace w'
         = trace w ++ l
             ++ [ Log ("Flow created successfully! File location: "
                         +:+ scriptFile) ]
       /\ quiet l.
Proof.
  intros commandFolder scriptFile Hconfig Hscript Hreg Hparent Hmk Hnodir
    Hdir Hne w'.
  destruct (createFlow_answered_run w config flowName flowPath commands
              content ext flows f1)
    as (l & Hrun & Hq); try assumption.
  fold commandFolder in Hrun. fold scriptFile in Hrun.
  unfold w'. rewrite Hrun. clear w' Hrun.
  destruct (node_at_lookup _ _ _ Hreg) as (Hk & Hfile).
  assert (Hscriptkey : here scriptFile w <> []).
  { intros Heq. rewrite Heq in Hnodir. discriminate Hnodir. }
  split; [ reflexivity | ]. split; [ | split; [ | split ] ].
  - unfold world_after; simpl.
    change (registry (logged ?l0 (set_fs ?f0 w))) with (registry (set_fs f0 w)).
    apply registry_after_write; [ exact Hconfig | ].
    unfold is_dir, node_at.
    destruct (flowsFile config w) eqn:Hkey; [ done | ].
    rewrite lookup_insert_ne by exact Hne.
    by rewrite (mkdir_p_keeps _ _ _ _ _ _ Hmk Hfile).
  - unfold world_after, node_at; simpl.
    destruct (here scriptFile w) eqn:Hkey; [ done | ].
    rewrite lookup_insert_ne by (intros Heq; by apply Hne).
    by rewrite lookup_insert_eq.
  - unfold world_after; simpl.
    rewrite is_dir_insert_file.
    + by rewrite is_dir_insert_file.
    + unfold is_dir, node_at.
      destruct (flowsFile config w) eqn:Hkey; [ done | ].
      rewrite lookup_insert_ne by exact Hne.
      by rewrite (mkdir_p_keeps _ _ _ _ _ _ Hmk Hfile).
  - exists l. split; [ | exact Hq ].
    unfold world_after; simpl. by rewrite <- ?app_assoc.
Qed.

(** ... for the name deploy, which is taken: the script is replaced and a
    second record is pushed. *)
Lemma createFlow_answered_registers_witness :
  let w' := world_after (createFlow_answered (settings "bash" true) "deploy"
                           "/elsewhere" "echo a,echo b" world_deploy) in
  outcome (createFlow_answered (settings "bash" true) "deploy" "/elsewhere"
                               "echo a,echo b" world_deploy) = Return tt
  /\ registry w'
     = [ deploy ]
         ++ [ mkFlow "deploy" "/elsewhere"
                (path_join (path_join "/r/commands" "deploy")
                           ("script" +:+ ".sh")) ]
  /\ node_at (fs w')
             (here (path_join (path_join "/r/commands" "deploy")
                              ("script" +:+ ".sh")) world_deploy)
     = Some (File (Plain deploy_script))
  /\ is_dir (fs w')
            (parent (here (path_join (path_join "/r/commands" "deploy")
                                     ("script" +:+ ".sh")) world_deploy))
     = true
  /\ exists l,
       trace w'
         = trace world_deploy ++ l
             ++ [ Log ("Flow created successfully! File location: "
                         +:+ path_join (path_join "/r/commands" "deploy")
                                       ("script" +:+ ".sh")) ]
       /\ quiet l.
Proof.
  apply (createFlow_answered_registers world_deploy (settings "bash" true)
           "deploy" "/elsewhere" "echo a,echo b" deploy_script ".sh"
           [ deploy ] (fs world_deploy)).
  - reflexivity.
  - reflexivity.
  - vm_compute. reflexivity.
  - vm_compute. reflexivity.
  - by_evaluation.
  - vm_compute. reflexivity.
  - vm_compute. reflexivity.
  - vm_compute. discriminate.
Defined.

(** ** flow reinit *)

Lemma unknown_profile config :
  terminalProfile config ∉ PROFILES ->
  String.eqb (terminalProfile config) "bash" = false
  /\ String.eqb (terminalProfile config) "zsh" = false
  /\ String.eqb (terminalProfile config) "powershell" = false
  /\ String.eqb (terminalProfile config) "cmd" = false.
Proof.
  intros Hp.
  repeat split; apply String.eqb_neq; intros Heq; apply Hp; rewrite Heq;
    unfold PROFILES; set_solver.
Qed.

(** [exec] does not look at how the child ends. *)
Lemma exec_run command w r f :
  child (host w) command (cwd w) (fs w) = (r, f) ->
  exec command w = (Return tt, emit (Spawned command (cwd w)) (set_fs f w)).
Proof.
  intros Hchild. unfold exec, try_catch, bind.
  rewrite (executeCommand_run command w r f Hchild). by destruct r.
Qed.

Ltac count_events :=
  rewrite ?questions_asked_app, ?commands_run_app;
  repeat match goal with
         | Hq : quiet _ |- _ =>
             rewrite ?(proj1 Hq), ?(proj2 Hq); clear Hq
         end;
  rewrite ?(proj1 (quiet_update_notice _)), ?(proj2 (quiet_update_notice _)).

(** [reinitialize] up to the answer to its first question. *)
Ltac run_reinitialize w line rest Hconfig Hflows Hs l Hq :=
  let Hl := fresh "Hl" in
  let Hreg := fresh "Hreg" in
  unfold reinitialize;
  erewrite bind_Return by apply checkForUpdates_run;
  erewrite bind_Return by (apply loadConfig_ok; exact Hconfig);
  destruct (loadFlows_run
              (logged (update_notice w) (logged (update_notice w) w)))
    as (l & Hl & Hq);
  erewrite bind_Return by exact Hl;
  change (registry (logged (update_notice w) (logged (update_notice w) w)))
    with (registry w);
  destruct (registry w) eqn:Hreg; [ congruence | ];
  change (0 <? length (?a :: ?b))%nat with true; cbv iota;
  erewrite bind_Return
    by (apply (prompt_list_run _ _ _ line rest);
        [ exact Hs
        | rewrite ?Hflows;
          repeat first [ apply list_elem_of_here
                       | apply list_elem_of_further ] ]).

(** The parts of a world that was written out. *)
Ltac read_world :=
  cbv [ world_after outcome fst snd
        logged emit set_stdin set_configFile set_fs set_cwd
        host cwd configFile configWritable fs stdin trace
        console_log console_error modify ret ].

(** X17: with flows in the registry, flow reinit asks what to do with them,
    and on Cancel it ends there: settings, files and working directory are
    as they were, no child was started and no further question asked. *)
Theorem reinitialize_cancel_changes_nothing w config rest :
  configFile w = Some (ConfigDoc config) ->
  registry w <> [] ->
  stdin w = "Cancel" :: rest ->
  exists l,
    reinitialize w = (Return tt, set_stdin rest (logged l w))
    /\ questions_asked l = [ "verification" ]
    /\ commands_run l = [].
Proof.
  intros Hconfig Hflows Hs.
  run_reinitialize w "Cancel" rest Hconfig Hflows Hs l Hq.
  exists (update_notice w ++ update_notice w ++ l ++ [ Asked "verification" ]).
  split; [ same_world | ].
  count_events. split; reflexivity.
Qed.

Lemma reinitialize_cancel_changes_nothing_witness :
  exists l,
    reinitialize (world_reinit (Exited EmptyString EmptyString)
                               [ "Cancel"; "/new" ])
      = (Return tt,
         set_stdin [ "/new" ]
           (logged l (world_reinit (Exited EmptyString EmptyString)
                                   [ "Cancel"; "/new" ])))
    /\ questions_asked l = [ "verification" ]
    /\ commands_run l = [].
Proof.
  apply (reinitialize_cancel_changes_nothing
           (world_reinit (Exited EmptyString EmptyString) [ "Cancel"; "/new" ])
           (settings "bash" true) [ "/new" ]).
  - reflexivity.
  - vm_compute. discriminate.
  - reflexivity.
Defined.

(** [reinitialize] on the choice Move, up to the command of the move. *)
Ltac run_move w line answer rest Hconfig Hflows Hs Hline l Hq :=
  run_reinitialize w line (answer :: rest) Hconfig Hline Hs l Hq;
  rewrite Hline;
  change (String.eqb "Move To New Location" "Move To New Location") with true;
  cbv iota;
  erewrite bind_Return by reflexivity;
  erewrite bind_Return
    by (apply (prompt_input_run _ _ answer rest); reflexivity).

(** X19: when the command of the move ends with another status, or cannot
    be started, flow reinit rejects with its error and the settings are not
    repointed: config.json is as it was, whatever the child did to the
    files. *)
Theorem reinitialize_move_failed_keeps_settings w config line answer rest
    r msg f :
  let location := or_default (default_location config w) answer in
  configFile w = Some (ConfigDoc config) ->
  registry w <> [] ->
  stdin w = line :: answer :: rest ->
  or_default "Move To New Location" line = "Move To New Location" ->
  posix_profile config = true ->
  child (host w) (mv_command config location) (cwd w) (fs w) = (r, f) ->
  r = ExitedNonZero msg \/ r = SpawnFailed msg ->
  let w' := world_after (reinitialize w) in
  outcome (reinitialize w) = Throw (mkError msg)
  /\ configFile w' = configFile w
  /\ fs w' = f /\ cwd w' = cwd w
  /\ exists l,
       trace w' = trace w ++ l
       /\ commands_run l = [ (mv_command config location, cwd w) ].
Proof.
  intros location Hconfig Hflows Hs Hline Hposix Hchild Hr w'. unfold w'.
  run_move w line answer rest Hconfig Hflows Hs Hline l Hq.
  unfold posix_profile in Hposix. rewrite Hposix. cbv iota.
  erewrite bind_Throw
    by (unfold execSync; erewrite bind_Throw
          by (rewrite (executeCommand_run _ _ r f) by exact Hchild;
              destruct Hr as [ Hr | Hr ]; rewrite Hr; reflexivity);
        reflexivity).
  read_world. repeat split.
  eexists. split; [ rewrite <- ?app_assoc; reflexivity | ].
  count_events. reflexivity.
Qed.

Lemma reinitialize_move_failed_keeps_settings_witness :
  let w := world_reinit (ExitedNonZero "Command failed")
                        [ "Move To New Location"; "/new" ] in
  let w' := world_after (reinitialize w) in
  outcome (reinitialize w) = Throw (mkError "Command failed")
  /\ configFile w' = configFile w
  /\ fs w' = mv [ "r" ] [ "new" ] fs_deploy /\ cwd w' = cwd w
  /\ exists l,
       trace w' = trace w ++ l
       /\ commands_run l
          = [ (mv_command (settings "bash" true) "/new", cwd w) ].
Proof.
  apply (reinitialize_move_failed_keeps_settings
           (world_reinit (ExitedNonZero "Command failed")
                         [ "Move To New Location"; "/new" ])
           (settings "bash" true) "Move To New Location" "/new" []
           (ExitedNonZero "Command failed") "Command failed"
           (mv [ "r" ] [ "new" ] fs_deploy)).
  - reflexivity.
  - vm_compute. discriminate.
  - reflexivity.
  - reflexivity.
  - reflexivity.
  - reflexivity.
  - by left.
Defined.

(** X20: with a terminalProfile that is none of the four, the choice Move
    prints "Invalid terminal profile selected.", starts no child and moves
    nothing, and still saves the settings with the new root. *)
Theorem reinitialize_move_unknown_profile w config line answer rest :
  let location := or_default (default_location config w) answer in
  configFile w = Some (ConfigDoc config) ->
  configWritable w = true ->
  registry w <> [] ->
  stdin w = line :: answer :: rest ->
  or_default "Move To New Location" line = "Move To New Location" ->
  terminalProfile config ∉ PROFILES ->
  let w' := world_after (reinitialize w) in
  outcome (reinitialize w) = Return tt
  /\ configFile w'
     = Some (ConfigDoc (located_settings (terminalProfile config) location
                                         (defaultFlowPath config)))
  /\ fs w' = fs w
  /\ exists l,
       trace w' = trace w ++ l
       /\ commands_run l = []
       /\ Log "Invalid terminal profile selected." ∈ l.
Proof.
  intros location Hconfig Hw Hflows Hs Hline Hp w'. unfold w'.
  destruct (unknown_profile config Hp) as (Hb & Hz & Hps & Hc).
  run_move w line answer rest Hconfig Hflows Hs Hline l Hq.
  rewrite Hb, Hz, Hps, Hc. cbv [ orb ]. cbv iota.
  erewrite bind_Return by reflexivity.
  rewrite saveConfig_run.
  change (configWritable _) with (configWritable w). rewrite Hw.
  read_world. repeat split.
  eexists. split; [ rewrite <- ?app_assoc; reflexivity | ].
  split; [ count_events; reflexivity | ].
  rewrite !elem_of_app, !elem_of_cons. tauto.
Qed.

Lemma reinitialize_move_unknown_profile_witness :
  let w := world_fish [ "Move To New Location"; "/new" ] in
  let w' := world_after (reinitialize w) in
  outcome (reinitialize w) = Return tt
  /\ configFile w' = Some (ConfigDoc (located_settings "fish" "/new" "."))
  /\ fs w' = fs w
  /\ exists l,
       trace w' = trace w ++ l
       /\ commands_run l = []
       /\ Log "Invalid terminal profile selected." ∈ l.
Proof.
  apply (reinitialize_move_unknown_profile
           (world_fish [ "Move To New Location"; "/new" ])
           (settings "fish" true) "Move To New Location" "/new" []).
  - reflexivity.
  - reflexivity.
  - vm_compute. discriminate.
  - reflexivity.
  - reflexivity.
  - unfold PROFILES. intros Hin.
    repeat (apply elem_of_cons in Hin; destruct Hin as [ Hin | Hin ];
            [ discriminate Hin | ]).
    by apply elem_of_nil in Hin.
Defined.

(** [reinitialize] on the choice Delete, up to the command of the removal. *)
Ltac run_delete w rest Hconfig Hflows Hs l Hq :=
  run_reinitialize w "Delete Existing Flows" rest Hconfig Hflows Hs l Hq;
  change (or_default "Move To New Location" "Delete Existing Flows")
    with "Delete Existing Flows";
  change (String.eqb "Delete Existing Flows" "Move To New Location")
    with false;
  change (String.eqb "Delete Existing Flows" "Delete Existing Flows")
    with true;
  cbv iota.

(** X21: with a terminalProfile that is none of the four, the choice Delete
    prints "Invalid terminal profile selected." and returns: nothing is
    removed, the settings are as they were and the questions of flow init
    are not asked. *)
Theorem reinitialize_delete_unknown_profile w config rest :
  configFile w = Some (ConfigDoc config) ->
  registry w <> [] ->
  stdin w = "Delete Existing Flows" :: rest ->
  terminalProfile config ∉ PROFILES ->
  exists l,
    reinitialize w = (Return tt, set_stdin rest (logged l w))
    /\ questions_asked l = [ "verification" ]
    /\ commands_run l = []
    /\ Log "Invalid terminal profile selected." ∈ l.
Proof.
  intros Hconfig Hflows Hs Hp.
  destruct (unknown_profile config Hp) as (Hb & Hz & Hps & Hc).
  run_delete w rest Hconfig Hflows Hs l Hq.
  rewrite Hb, Hz, Hps, Hc. cbv [ orb ]. cbv iota.
  erewrite bind_Return by reflexivity.
  exists (update_notice w ++ update_notice w ++ l
            ++ [ Asked "verification";
                 Log "Invalid terminal profile selected." ]).
  split; [ same_world | ].
  split; [ count_events; reflexivity | ].
  split; [ count_events; reflexivity | ].
  rewrite !elem_of_app, !elem_of_cons. tauto.
Qed.

Lemma reinitialize_delete_unknown_profile_witness :
  exists l,
    reinitialize (world_fish [ "Delete Existing Flows"; "zsh" ])
      = (Return tt,
         set_stdin [ "zsh" ]
           (logged l (world_fish [ "Delete Existing Flows"; "zsh" ])))
    /\ questions_asked l = [ "verification" ]
    /\ commands_run l = []
    /\ Log "Invalid terminal profile selected." ∈ l.
Proof.
  apply (reinitialize_delete_unknown_profile
           (world_fish [ "Delete Existing Flows"; "zsh" ])
           (settings "fish" true) [ "zsh" ]).
  - reflexivity.
  - vm_compute. discriminate.
  - reflexivity.
  - unfold PROFILES. intros Hin.
    repeat (apply elem_of_cons in Hin; destruct Hin as [ Hin | Hin ];
            [ discriminate Hin | ]).
    by apply elem_of_nil in Hin.
Defined.

(** X22: on the choice Delete with the profile bash or zsh, flow reinit
    starts rm -rf <flowDir> and, however that ends, goes through the
    questions of flow init: the settings saved are the answers, with
    initialized = true. *)
Theorem reinitialize_delete_then_initialize w config profile answer rest
    r f :
  configFile w = Some (ConfigDoc config) ->
  configWritable w = true ->
  registry w <> [] ->
  stdin w = "Delete Existing Flows" :: profile :: answer :: rest ->
  posix_profile config = true ->
  or_default "bash" profile ∈ PROFILES ->
  child (host w) (rm_command config) (cwd w) (fs w) = (r, f) ->
  let w' := world_after (reinitialize w) in
  outcome (reinitialize w) = Return tt
  /\ configFile w'
     = Some (ConfigDoc
               (located_settings (or_default "bash" profile)
                  (or_default (default_location config w) answer)
                  (defaultFlowPath config)))
  /\ cwd w' = cwd w /\ stdin w' = rest
  /\ exists l,
       trace w' = trace w ++ l
       /\ questions_asked l
          = [ "verification"; "terminalProfile"; "flowLocation" ]
       /\ commands_run l = [ (rm_command config, cwd w) ].
Proof.
  intros Hconfig Hw Hflows Hs Hposix Hin Hchild w'. unfold w'.
  run_delete w (profile :: answer :: rest) Hconfig Hflows Hs l Hq.
  unfold posix_profile in Hposix. rewrite Hposix. cbv iota.
  erewrite bind_Return
    by (erewrite bind_Return
          by (apply (exec_run _ _ r f); exact Hchild);
        reflexivity).
  cbv [ negb ]. cbv iota.
  erewrite bind_Return
    by (rewrite saveConfig_run;
        change (configWritable _) with (configWritable w); rewrite Hw;
        reflexivity).
  erewrite initialize_run;
    [ | reflexivity | reflexivity | exact Hw | reflexivity | exact Hin ].
  read_world. repeat split.
  eexists. split; [ rewrite <- ?app_assoc; reflexivity | ].
  count_events. split; reflexivity.
Qed.

(** ... the removal failing. *)
Lemma reinitialize_delete_then_initialize_witness :
  let w := world_of failing_host (settings "zsh" false) fs_deploy
                    [ "Delete Existing Flows"; EmptyString; "/new" ] in
  let w' := world_after (reinitialize w) in
  outcome (reinitialize w) = Return tt
  /\ configFile w' = Some (ConfigDoc (located_settings "bash" "/new" "."))
  /\ cwd w' = cwd w /\ stdin w' = []
  /\ exists l,
       trace w' = trace w ++ l
       /\ questions_asked l
          = [ "verification"; "terminalProfile"; "flowLocation" ]
       /\ commands_run l = [ (rm_command (settings "zsh" false), cwd w) ].
Proof.
  apply (reinitialize_delete_then_initialize
           (world_of failing_host (settings "zsh" false) fs_deploy
                     [ "Delete Existing Flows"; EmptyString; "/new" ])
           (settings "zsh" false) EmptyString "/new" []
           (ExitedNonZero "Command failed") fs_deploy).
  - reflexivity.
  - reflexivity.
  - vm_compute. discriminate.
  - reflexivity.
  - reflexivity.
  - vm_compute. set_solver.
  - reflexivity.
Defined.

(** ** flow edit *)

(** X23: openFlowForEditing of a flow whose directory can be entered (its
    path can be followed and leads to a directory) settles normally however the editor ends, and reports in this order: "Opening
    flow for editing: <name>", the child's standard output on console.log
    and, when it is not empty, its standard error on console.error (or, for
    a child that fails, "Error opening flow for editing: <message>"), and
    last "Finished."; the registry is not written. *)
Theorem openFlowForEditing_reports_the_child w flowName config flow r f :
  configFile w = Some (ConfigDoc config) ->
  initialized config = true ->
  List.find (named flowName) (registry w) = Some flow ->
  canonical_dir (cwd w) ->
  leads_to_directory (path flow) w = true ->
  child (host w) ("code " +:+ script flow) (flow_directory flow w) (fs w)
    = (r, f) ->
  is_dir f (path_segments (cwd w)) = true ->
  exists l,
    openFlowForEditing flowName w
      = (Return tt,
         logged (l ++ [ Log ("Opening flow for editing: " +:+ name flow);
                        Spawned ("code " +:+ script flow)
                                (flow_directory flow w) ]
                   ++ report "Error opening flow for editing: " r
                   ++ [ Log "Finished." ])
                (set_fs f w))
    /\ quiet l.
Proof.
  intros Hconfig Hinit Hfound Hcanon Hdir Hchild Hstill.
  destruct (openFlowForEditing_found w flowName config flow Hconfig Hinit
              Hfound) as (l & Hrun & Hq).
  exists l. split; [ | exact Hq ].
  rewrite Hrun.
  rewrite (scoped_run "code " _ _ flow (logged l w) r f Hcanon Hdir Hchild
             Hstill).
  same_world.
Qed.

(** ... for an editor that cannot be started. *)
Lemma openFlowForEditing_reports_the_child_witness :
  exists l,
    openFlowForEditing "deploy" world_failing
      = (Return tt,
         logged (l ++ [ Log ("Opening flow for editing: " +:+ name deploy);
                        Spawned ("code " +:+ script deploy)
                                (flow_directory deploy world_failing) ]
                   ++ report "Error opening flow for editing: "
                        (ExitedNonZero "Command failed")
                   ++ [ Log "Finished." ])
                (set_fs (fs world_failing) world_failing))
    /\ quiet l.
Proof.
  apply (openFlowForEditing_reports_the_child world_failing "deploy"
           (settings "powershell" true) deploy
           (ExitedNonZero "Command failed") (fs world_failing)).
  - reflexivity.
  - reflexivity.
  - by_evaluation.
  - split; by_evaluation.
  - by_evaluation.
  - reflexivity.
  - by_evaluation.
Defined.

(** ** flow create, then flow delete *)

Lemma node_at_key (f : FS) (k : list string) :
  k <> [] -> node_at f k = f !! k.
Proof. by destruct k. Qed.

Lemma findIndex_last pred (l : list Flow) x :
  Forall (fun f => pred f = false) l ->
  pred x = true ->
  findIndex pred (l ++ [ x ]) = Some (length l).
Proof.
  intros Hl Hx. induction Hl as [ | y r Hy _ IH ]; simpl.
  - by rewrite Hx.
  - by rewrite Hy, IH.
Qed.

Lemma splice1_last (l : list Flow) x : splice1 (length l) (l ++ [ x ]) = l.
Proof.
  unfold splice1.
  rewrite take_app_length.
  rewrite drop_ge by (rewrite length_app; simpl; lia).
  by rewrite app_nil_r.
Qed.

(** X24: a flow created under a name that no record has, and deleted right
    after, leaves the registry as it was before and no script file. *)
Theorem createFlow_then_deleteFlow w config flowName flowPath commands
    content ext flows f1 :
  let commandFolder := path_join (flowCommandDir config) flowName in
  let scriptFile := path_join commandFolder ("script" +:+ ext) in
  configFile w = Some (ConfigDoc config) ->
  initialized config = true ->
  generateScript (terminalProfile config) commands = Some (content, ext) ->
  registry_node config w = Some (File (FlowsDoc flows)) ->
  Forall (fun f => name f <> flowName) flows ->
  is_dir (fs w) (parent (flowsFile config w)) = true ->
  mkdir_p (fs w) [] (here commandFolder w) = Some f1 ->
  is_dir f1 (here scriptFile w) = false ->
  is_dir f1 (parent (here scriptFile w)) = true ->
  ~ here scriptFile w `prefix_of` flowsFile config w ->
  let w1 := world_after (createFlow_answered config flowName flowPath
                           commands w) in
  let w2 := world_after (deleteFlow flowName w1) in
  outcome (deleteFlow flowName w1) = Return tt
  /\ registry w1 = flows ++ [ mkFlow flowName flowPath scriptFile ]
  /\ registry w2 = flows
  /\ node_at (fs w2) (here scriptFile w) = None.
Proof.
  intros commandFolder scriptFile Hconfig Hinit Hscript Hreg Hfresh Hparent
    Hmk Hnodir Hdir Hout w1 w2.
  assert (Hne : here scriptFile w <> flowsFile config w).
  { intros Heq. apply Hout. by rewrite Heq. }
  destruct (createFlow_answered_run w config flowName flowPath commands
              content ext flows f1)
    as (l & Hrun & Hq); try assumption.
  fold commandFolder in Hrun. fold scriptFile in Hrun.
  destruct (node_at_lookup _ _ _ Hreg) as (Hk & Hfile).
  set (flow := mkFlow flowName flowPath scriptFile) in *.
  set (f2 := <[ here scriptFile w := File (Plain content) ]> f1) in *.
  set (f3 := <[ flowsFile config w := File (FlowsDoc (flows ++ [ flow ])) ]>
               f2) in *.
  assert (Hkey : here scriptFile w <> []).
  { intros Heq. rewrite Heq in Hnodir. discriminate Hnodir. }
  assert (Hreg1 : registry_node config w1
                  = Some (File (FlowsDoc (flows ++ [ flow ])))).
  { unfold w1. rewrite Hrun. unfold world_after, registry_node; simpl.
    change (flowsFile config (logged ?l0 (set_fs ?f0 w)))
      with (flowsFile config w).
    rewrite node_at_key by exact Hk.
    unfold f3. by rewrite lookup_insert_eq. }
  assert (Hregistry1 : registry w1 = flows ++ [ flow ]).
  { unfold registry.
    replace (configFile w1) with (configFile w)
      by (unfold w1; by rewrite Hrun).
    by rewrite Hconfig, Hreg1. }
  destruct (deleteFlow_run w1 config flowName (flows ++ [ flow ])
              (length flows) flow) as (l2 & Hdel & _).
  - unfold w1. by rewrite Hrun.
  - exact Hinit.
  - exact Hreg1.
  - apply findIndex_last.
    + eapply Forall_impl; [ exact Hfresh | ]. intros x Hx.
      unfold named. by apply String.eqb_neq.
    + unfold named, flow; simpl. apply String.eqb_refl.
  - by rewrite lookup_app_r, Nat.sub_diag.
  - unfold leads_somewhere. change (script flow) with scriptFile.
    unfold scriptFile at 1. rewrite locate_path_join.
    fold commandFolder. fold scriptFile.
    unfold w1. rewrite Hrun. unfold world_after; simpl.
    change (here scriptFile (logged ?l0 (set_fs ?f0 w)))
      with (here scriptFile w).
    unfold exists_path, is_file, is_dir.
    rewrite !node_at_key by exact Hkey.
    unfold f3. rewrite lookup_insert_ne by (intros Heq; by apply Hne).
    unfold f2. rewrite lookup_insert_eq. reflexivity.
  - unfold w1. rewrite Hrun. exact Hout.
  - unfold w1. rewrite Hrun. unfold world_after; simpl.
    change (flowsFile config (logged ?l0 (set_fs ?f0 w)))
      with (flowsFile config w).
    unfold f3. rewrite is_dir_insert_file.
    + unfold f2. rewrite is_dir_insert_file by exact Hnodir.
      eapply is_dir_lookup; [ | exact Hparent ].
      intros n Hn. by apply (mkdir_p_keeps _ _ _ _ _ _ Hmk).
    + unfold is_dir. rewrite node_at_key by exact Hk.
      unfold f2. rewrite lookup_insert_ne by exact Hne.
      by rewrite (mkdir_p_keeps _ _ _ _ _ _ Hmk Hfile).
  - split; [ unfold w2; by rewrite Hdel | ].
    split; [ exact Hregistry1 | ].
    assert (Hsame : flowsFile config w1 = flowsFile config w)
      by (unfold w1; by rewrite Hrun).
    assert (Hhere : here scriptFile w1 = here scriptFile w)
      by (unfold w1; by rewrite Hrun).
    change (script flow) with scriptFile in Hdel.
    assert (Hconfig1 : configFile w1 = Some (ConfigDoc config))
      by (unfold w1; by rewrite Hrun).
    split.
    + unfold w2. rewrite Hdel. unfold world_after; simpl.
      change (registry (logged ?l0 (set_fs ?f0 w1)))
        with (registry (set_fs f0 w1)).
      transitivity (splice1 (length flows) (flows ++ [ flow ]));
        [ | apply splice1_last ].
      apply registry_after_write; [ exact Hconfig1 | ].
      rewrite Hsame, Hhere.
      rewrite is_dir_remove_tree by exact Hout.
      unfold registry_node in Hreg1. rewrite Hsame in Hreg1.
      unfold is_dir. by rewrite Hreg1.
    + unfold w2. rewrite Hdel. unfold world_after; simpl.
      rewrite Hsame, Hhere. rewrite node_at_key by exact Hkey.
      rewrite lookup_insert_ne by (intros Heq; apply Hne; by rewrite Heq).
      unfold remove_tree. apply map_lookup_filter_None_2. right.
      intros n _ Hn. by apply Hn.
Qed.

(** ... for the name build beside deploy. *)
Lemma createFlow_then_deleteFlow_witness :
  let scriptFile := path_join (path_join "/r/commands" "build")
                              ("script" +:+ ".sh") in
  let w1 := world_after (createFlow_answered (settings "bash" true) "build"
                           "/w" "echo a,echo b" world_deploy) in
  let w2 := world_after (deleteFlow "build" w1) in
  outcome (deleteFlow "build" w1) = Return tt
  /\ registry w1 = [ deploy ] ++ [ mkFlow "build" "/w" scriptFile ]
  /\ registry w2 = [ deploy ]
  /\ node_at (fs w2) (here scriptFile world_deploy) = None.
Proof.
  apply (createFlow_then_deleteFlow world_deploy (settings "bash" true)
           "build" "/w" "echo a,echo b" deploy_script ".sh" [ deploy ]
           (<[ [ "r"; "commands"; "build" ] := Dir ]> (fs world_deploy))).
  - reflexivity.
  - reflexivity.
  - reflexivity.
  - by_evaluation.
  - repeat constructor. discriminate.
  - by_evaluation.
  - by_evaluation.
  - by_evaluation.
  - by_evaluation.
  - intros Hp. apply prefix_length in Hp. vm_compute in Hp. lia.
Defined.
